(** * Bambu timelapse downloader: a shallow embedding of
      [bambu_timelapse_download.py] and the properties of its download loop.

    The script talks to three things outside itself: the local download
    directory, the FTP client library (and, through it, the printer), and the
    logger.  The embedding makes all three explicit:

    - the download directory is a finite map from entry names to contents
      ([None] while the directory does not exist); the files outside it that
      a path of the script may lead to are a second finite map;
    - which file a path leads to is decided by the file system, not by the
      script: the environment resolves every path to a [location], an entry
      of the download directory or a file elsewhere, so that two different
      path strings can lead to the same file;
    - every call that may fail for reasons the script does not control
      ([os.makedirs], [os.listdir], [open], [write], [os.remove], and each
      [ftplib] method) is answered by an environment [Env St], a record of
      transition functions over an arbitrary environment state [St];
      theorems quantify over it;
    - effects are recorded, in program order, in a trace of events.

    Nothing but the script changes the local files during a run, the entries
    of the download directory are regular files, and the way paths are
    resolved does not change during a run.

    Python's control flow is kept as it is written: [raise] / [except] are the
    [Raise] outcome, [sys.exit] is the [Exit] outcome (a [SystemExit], which
    [except Exception] does not catch), [continue] ends one loop iteration. *)

From stdpp Require Import base option list strings gmap.
From Stdlib Require Import ZArith Lia Strings.Byte Strings.Ascii.

Open Scope string_scope.
Open Scope Z_scope.

(** ** Strings *)

(** [s.endswith(suffix)] *)
Definition endswith (s suffix : string) : bool :=
  let n := String.length s in
  let m := String.length suffix in
  (m <=? n)%nat && String.eqb (String.substring (n - m) m s) suffix.

(** [x in l] on a list of strings *)
Definition py_in (x : string) (l : list string) : bool :=
  existsb (String.eqb x) l.

(** ** Exceptions, log records, events *)

(** The exception classes that matter to the handlers: [ftplib.error_perm] is
    singled out by [except ftplib.error_perm]; every other class is caught only
    by [except Exception]. *)
Inductive exn_class :=
| error_perm | error_temp | error_proto | error_reply
| OSError | TypeError | OverflowError | OtherException.

(** An exception: its class and [str(e)]. *)
Record exn := Exn { exn_cls : exn_class; exn_str : string }.

Definition is_error_perm (e : exn) : bool :=
  match exn_cls e with error_perm => true | _ => false end.

Inductive level := INFO | ERROR.

(** The log messages, one constructor per format string of the script; the
    arguments are the interpolated values. *)
Inductive message :=
| MsgConnecting (user : string) (ip : option string) (port : Z)
| MsgConnected
| MsgConnectionFailed (e : string)
| MsgLooking
| MsgFound (total_files : nat)
| MsgZeroSize (f : string)
| MsgStarting (index total_files : nat) (f : string) (filesize : Z)
| MsgDeleteFailed (e : string)
| MsgDownloadFailed (f : string) (e : string)
| MsgNoNewFiles
| MsgNoFilesInDirectory
| MsgFolderNotFound (folder : string)
| MsgProgramFailed (e : string).

(** Commands sent through the FTP client. *)
Inductive ftp_cmd :=
| CONNECT (host : option string) (port : Z)
| LOGIN (user : string) (passwd : option string)
| PROT_P
| NLST
| CWD (dirname : string)
| SIZE (filename : string)
| RETR (filename : string)
| DELE (filename : string).

Inductive event :=
| EvMakedirs (dir : string)
| EvListdir (dir : string)
| EvOpen (dir f : string)
| EvWrite (f : string) (data : list Byte.byte)
| EvProgress (n : nat)
| EvRemove (dir f : string)
| EvFtp (c : ftp_cmd)
| EvLog (l : level) (m : message).

(** ** Command line *)

(** The namespace returned by [parser.parse_args()].  [--ip] and [--password]
    have no default, so they may be [None]. *)
Record Args := {
  ip : option string;
  port : Z;
  user : string;
  password : option string;
  download_dir : string;
  ftp_timelapse_folder : string;
  delete_files_from_sd_card_after_download : bool
}.

(** The defaults declared by the [add_argument] calls. *)
Definition default_args (application_path : string) : Args :=
  {| ip := None;
     port := 990;
     user := "bblp";
     password := None;
     download_dir := application_path +:+ "/timelapse";
     ftp_timelapse_folder := "timelapse";
     delete_files_from_sd_card_after_download := false |}.

(** ** Paths *)

(** Line 113: [f'{args.download_dir}/{f}']. *)
Definition download_file_path (dir f : string) : string :=
  dir +:+ "/" +:+ f.

(** The file a path leads to: the entry [name] of the download directory, or
    a file elsewhere.  Different paths may lead to the same file ([a.avi] and
    [./a.avi]; [a.avi] and [A.AVI] where the file system ignores case), and a
    path built from the download directory may leave it ([../x.avi]). *)
Inductive location :=
| Entry (name : string)
| Elsewhere (file : string).

(** ** The environment *)

(** What the outside world answers.  [os_locate] tells which file a path
    leads to.  For a call that returns nothing the answer is [None]
    (success) or [Some e] (the call raises [e]); the local calls that act on
    the path [f'{dir}/{f}'] are given [dir] and [f].  [ftp_size]
    answers what [FTP.size] returns: an integer, or [None] when the reply code
    is not 213.  [ftp_retr] answers the chunks the server delivers and, when
    the transfer breaks, the exception raised after the last chunk. *)
Record Env (St : Type) := {
  os_locate : string -> location;
  os_makedirs : string -> St -> option exn * St;
  os_listdir : string -> St -> option exn * St;
  os_open : string -> string -> St -> option exn * St;
  os_write : string -> list Byte.byte -> St -> option exn * St;
  os_remove : string -> string -> St -> option exn * St;
  ftp_connect : option string -> Z -> St -> option exn * St;
  ftp_login : string -> option string -> St -> option exn * St;
  ftp_prot_p : St -> option exn * St;
  ftp_nlst : St -> (exn + list string) * St;
  ftp_cwd : string -> St -> option exn * St;
  ftp_size : string -> St -> (exn + option Z) * St;
  ftp_retr : string -> St -> (list (list Byte.byte) * option exn) * St;
  ftp_delete : string -> St -> option exn * St
}.
Arguments os_locate {St}.
Arguments os_makedirs {St}.
Arguments os_listdir {St}.
Arguments os_open {St}.
Arguments os_write {St}.
Arguments os_remove {St}.
Arguments ftp_connect {St}.
Arguments ftp_login {St}.
Arguments ftp_prot_p {St}.
Arguments ftp_nlst {St}.
Arguments ftp_cwd {St}.
Arguments ftp_size {St}.
Arguments ftp_retr {St}.
Arguments ftp_delete {St}.

(** ** The state of a run *)

Record World (St : Type) := {
  fs : option (gmap string (list Byte.byte));
  elsewhere : gmap string (list Byte.byte);
  env_state : St;
  trace : list event
}.
Arguments fs {St}.
Arguments elsewhere {St}.
Arguments env_state {St}.
Arguments trace {St}.
Arguments Build_World {St}.

(** The files of the download directory; none while it does not exist. *)
Definition contents {St} (w : World St) : gmap string (list Byte.byte) :=
  default ∅ (fs w).

(** The file at a location, if there is one. *)
Definition file_at {St} (w : World St) (l : location)
    : option (list Byte.byte) :=
  match l with
  | Entry name => contents w !! name
  | Elsewhere file => elsewhere w !! file
  end.

(** The world in which the file at [l] is [c] ([None]: there is no file at
    [l]); an entry can only be stored in a directory that exists. *)
Definition update_file {St} (l : location) (c : option (list Byte.byte))
    (w : World St) : World St :=
  match l with
  | Entry name =>
      {| fs := partial_alter (fun _ => c) name <$> fs w;
         elsewhere := elsewhere w;
         env_state := env_state w;
         trace := trace w |}
  | Elsewhere file =>
      {| fs := fs w;
         elsewhere := partial_alter (fun _ => c) file (elsewhere w);
         env_state := env_state w;
         trace := trace w |}
  end.

(** ** The monad: state, exceptions and [sys.exit] *)

Inductive outcome (A : Type) :=
| Ok (a : A)
| Raise (e : exn)
| Exit (code : Z).
Arguments Ok {A}.
Arguments Raise {A}.
Arguments Exit {A}.

Definition M (St A : Type) : Type := World St -> outcome A * World St.

Definition ret {St A} (a : A) : M St A := fun w => (Ok a, w).

Definition bind {St A B} (m : M St A) (k : A -> M St B) : M St B :=
  fun w =>
    match m w with
    | (Ok a, w') => k a w'
    | (Raise e, w') => (Raise e, w')
    | (Exit c, w') => (Exit c, w')
    end.

Definition raise {St A} (e : exn) : M St A := fun w => (Raise e, w).

(** [sys.exit(code)] *)
Definition sys_exit {St A} (code : Z) : M St A := fun w => (Exit code, w).

(** [try: body  except <classes accepted by catches> as e: handler e].
    An [Exit] passes through: [SystemExit] is not an [Exception]. *)
Definition try_except {St A} (body : M St A) (catches : exn -> bool)
    (handler : exn -> M St A) : M St A :=
  fun w =>
    match body w with
    | (Raise e, w') => if catches e then handler e w' else (Raise e, w')
    | r => r
    end.

(** [except Exception] *)
Definition Exception (e : exn) : bool := true.

Declare Scope py_scope.
Delimit Scope py_scope with py.
Notation "x <- c1 ;; c2" := (bind c1 (fun x => c2))
  (at level 100, c1 at next level, right associativity) : py_scope.
Notation "c1 ;; c2" := (bind c1 (fun _ => c2))
  (at level 100, right associativity) : py_scope.

Definition emit {St} (ev : event) : M St unit :=
  fun w => (Ok tt, {| fs := fs w; elsewhere := elsewhere w;
                      env_state := env_state w; trace := trace w ++ [ev] |}).

(** Ask the environment; the answer is returned as a value. *)
Definition ask {St A} (f : St -> A * St) : M St A :=
  fun w => let (a, s') := f (env_state w) in
           (Ok a, {| fs := fs w; elsewhere := elsewhere w; env_state := s';
                     trace := trace w |}).

Definition get_fs {St} : M St (option (gmap string (list Byte.byte))) :=
  fun w => (Ok (fs w), w).

Definition set_fs {St} (d : option (gmap string (list Byte.byte))) : M St unit :=
  fun w => (Ok tt, {| fs := d; elsewhere := elsewhere w;
                      env_state := env_state w; trace := trace w |}).

Definition get_file {St} (l : location) : M St (option (list Byte.byte)) :=
  fun w => (Ok (file_at w l), w).

Definition set_file {St} (l : location) (c : option (list Byte.byte))
    : M St unit :=
  fun w => (Ok tt, update_file l c w).

(** A call that returns nothing: raise what the environment says, if anything. *)
Definition check {St} (r : option exn) : M St unit :=
  match r with
  | Some e => raise e
  | None => ret tt
  end.

Definition logger_info {St} (m : message) : M St unit := emit (EvLog INFO m).
Definition logger_error {St} (m : message) : M St unit := emit (EvLog ERROR m).

(** ** Floats *)

(** [n / 1024] on an integer [n] is the float nearest to the quotient, and
    raises [OverflowError] when that is beyond the largest float: from
    [2^1024 - 2^970] on, that is for [|n| >= 2^1034 - 2^980]. *)
Definition float_overflows (n : Z) : bool :=
  2 ^ 1034 - 2 ^ 980 <=? Z.abs n.

(** ** The calls the script makes *)

Section Downloader.
Context {St : Type}.
Variable env : Env St.

(** *** Local file system *)

(** [os.path.exists(args.download_dir)] *)
Definition dir_exists : M St bool :=
  (d <- get_fs ;;
   ret (match d with Some _ => true | None => false end))%py.

(** [os.makedirs(dir)] *)
Definition makedirs (dir : string) : M St unit :=
  (emit (EvMakedirs dir) ;;
   r <- ask (os_makedirs env dir) ;;
   check r ;;
   set_fs (Some ∅))%py.

(** [os.listdir(dir)] *)
Definition listdir (dir : string) : M St (list string) :=
  (emit (EvListdir dir) ;;
   r <- ask (os_listdir env dir) ;;
   check r ;;
   d <- get_fs ;;
   match d with
   | Some m => ret (elements (dom m : gset string))
   | None => raise (Exn OSError "No such file or directory")
   end)%py.

(** [open(f'{dir}/{f}', 'wb')]: creates the file the path leads to, or
    truncates it, and returns the handle, here the location of the file.
    The path starts at [dir], so [dir] must exist. *)
Definition open_wb (dir f : string) : M St location :=
  (emit (EvOpen dir f) ;;
   r <- ask (os_open env dir f) ;;
   check r ;;
   d <- get_fs ;;
   match d with
   | Some _ =>
       let fhandle := os_locate env (download_file_path dir f) in
       (set_file fhandle (Some []) ;;
        ret fhandle)
   | None => raise (Exn OSError "No such file or directory")
   end)%py.

(** [fhandle.write(data)], for the file opened under the name [f]. *)
Definition write (fhandle : location) (f : string) (data : list Byte.byte)
    : M St unit :=
  (emit (EvWrite f data) ;;
   r <- ask (os_write env f data) ;;
   check r ;;
   old <- get_file fhandle ;;
   set_file fhandle (Some (default [] old ++ data)%list))%py.

(** [os.path.exists(f'{dir}/{f}')] *)
Definition path_exists (dir f : string) : M St bool :=
  (c <- get_file (os_locate env (download_file_path dir f)) ;;
   ret (match c with Some _ => true | None => false end))%py.

(** [os.remove(f'{dir}/{f}')] *)
Definition remove (dir f : string) : M St unit :=
  (emit (EvRemove dir f) ;;
   r <- ask (os_remove env dir f) ;;
   check r ;;
   c <- get_file (os_locate env (download_file_path dir f)) ;;
   match c with
   | Some _ => set_file (os_locate env (download_file_path dir f)) None
   | None => raise (Exn OSError "No such file or directory")
   end)%py.

(** *** FTP client *)

Definition connect (host : option string) (port : Z) : M St unit :=
  (emit (EvFtp (CONNECT host port)) ;;
   r <- ask (ftp_connect env host port) ;;
   check r)%py.

Definition login (user : string) (passwd : option string) : M St unit :=
  (emit (EvFtp (LOGIN user passwd)) ;;
   r <- ask (ftp_login env user passwd) ;;
   check r)%py.

Definition prot_p : M St unit :=
  (emit (EvFtp PROT_P) ;;
   r <- ask (ftp_prot_p env) ;;
   check r)%py.

Definition nlst : M St (list string) :=
  (emit (EvFtp NLST) ;;
   r <- ask (ftp_nlst env) ;;
   match r with
   | inl e => raise e
   | inr names => ret names
   end)%py.

Definition cwd (dirname : string) : M St unit :=
  (emit (EvFtp (CWD dirname)) ;;
   r <- ask (ftp_cwd env dirname) ;;
   check r)%py.

Definition size (filename : string) : M St (option Z) :=
  (emit (EvFtp (SIZE filename)) ;;
   r <- ask (ftp_size env filename) ;;
   match r with
   | inl e => raise e
   | inr n => ret n
   end)%py.

Definition delete (filename : string) : M St unit :=
  (emit (EvFtp (DELE filename)) ;;
   r <- ask (ftp_delete env filename) ;;
   check r)%py.

(** The chunks of a transfer are handed to the callback one by one; an
    exception of the callback ends the transfer. *)
Fixpoint deliver (callback : list Byte.byte -> M St unit)
    (chunks : list (list Byte.byte)) : M St unit :=
  match chunks with
  | [] => ret tt
  | data :: rest => (callback data ;; deliver callback rest)%py
  end.

(** [ftp_client.retrbinary(f'RETR {f}', callback)] *)
Definition retrbinary (filename : string)
    (callback : list Byte.byte -> M St unit) : M St unit :=
  (emit (EvFtp (RETR filename)) ;;
   r <- ask (ftp_retr env filename) ;;
   deliver callback (fst r) ;;
   check (snd r))%py.

(** ** The script *)

Variable args : Args.

(** Lines 129-131. *)
Definition callback (fhandle : location) (f : string)
    (data : list Byte.byte) : M St unit :=
  (write fhandle f data ;;
   emit (EvProgress (length data)))%py.

(** Line 112: [round(filesize / 1024 / 1024, 2)].  On [None] the division
    raises [TypeError]; on an integer whose quotient by 1024 is too large
    for a float it raises [OverflowError]; otherwise it yields a number that
    is only shown in the log, and the script goes on with [filesize]: that
    integer is what is returned here. *)
Definition filesize_mb (filesize : option Z) : M St Z :=
  match filesize with
  | Some n =>
      if float_overflows n then
        raise (Exn OverflowError
                 "integer division result too large for a float")
      else ret n
  | None =>
      raise (Exn TypeError
               "unsupported operand type(s) for /: 'NoneType' and 'int'")
  end.

(** Lines 119-133: log, open the local file, stream into it.  Leaving the
    [with] block closes the file, on success and on an exception alike. *)
Definition download (total_files index : nat) (f : string) (filesize : Z)
    : M St unit :=
  (logger_info (MsgStarting index total_files f filesize) ;;
   fhandle <- open_wb (download_dir args) f ;;
   retrbinary f (callback fhandle f))%py.

(** Lines 135-140. *)
Definition delete_after (f : string) : M St unit :=
  if delete_files_from_sd_card_after_download args then
    try_except (delete f) Exception
      (fun e => logger_error (MsgDeleteFailed (exn_str e)))
  else ret tt.

(** Lines 141-145: the handler of the per-file [try].  An exception of
    [os.remove] is raised inside the handler, so it leaves the loop. *)
Definition cleanup (f : string) (e : exn) : M St unit :=
  (ex <- path_exists (download_dir args) f ;;
   (if ex then remove (download_dir args) f else ret tt) ;;
   logger_error (MsgDownloadFailed f (exn_str e)))%py.

(** Lines 111-145: the body of the [for] loop.  Each [continue] is the last
    statement of its branch, so an iteration simply ends there.  The size
    query and line 112 come before the [try] of line 118. *)
Definition fetch_one (total_files index : nat) (f : string) : M St unit :=
  (filesize <- size f ;;
   filesize <- filesize_mb filesize ;;
   if filesize =? 0 then
     logger_info (MsgZeroSize f)
   else
     try_except
       (download total_files index f filesize ;;
        delete_after f)
       Exception
       (cleanup f))%py.

(** Line 110: [for index, f in enumerate(ftp_timelapse_files, start=1)]. *)
Fixpoint download_loop (total_files index : nat) (files : list string)
    : M St unit :=
  match files with
  | [] => ret tt
  | f :: rest =>
      (fetch_one total_files index f ;;
       download_loop total_files (S index) rest)%py
  end.

(** Lines 103-104. *)
Definition download_set (downloaded_files listing : list string)
    : list string :=
  let ftp_timelapse_files :=
    List.filter (fun f => endswith f ".avi") listing in
  List.filter (fun f => negb (py_in f downloaded_files)) ftp_timelapse_files.

(** Lines 83-86. *)
Definition local_scan : M St (list string) :=
  (ex <- dir_exists ;;
   (if negb ex then makedirs (download_dir args) else ret tt) ;;
   names <- listdir (download_dir args) ;;
   ret (List.filter (fun f => endswith f ".avi") names))%py.

(** Lines 88-93.  The port is the literal 990 of line 90. *)
Definition handshake : M St unit :=
  (logger_info (MsgConnecting (user args) (ip args) (port args)) ;;
   connect (ip args) 990 ;;
   login (user args) (password args) ;;
   prot_p ;;
   logger_info MsgConnected)%py.

(** Lines 83-93: the body of the first [try]. *)
Definition connect_body : M St (list string) :=
  (downloaded_files <- local_scan ;;
   handshake ;;
   ret downloaded_files)%py.

(** Lines 82-96. *)
Definition connect_phase : M St (list string) :=
  try_except connect_body Exception
    (fun e =>
       (logger_error (MsgConnectionFailed (exn_str e)) ;;
        sys_exit 1)%py).

(** Lines 102-147: the body of the inner [try]. *)
Definition fetch_all (downloaded_files : list string) : M St unit :=
  (logger_info MsgLooking ;;
   listing <- nlst ;;
   let ftp_timelapse_files := download_set downloaded_files listing in
   let total_files := length ftp_timelapse_files in
   if (0 <? total_files)%nat then
     (logger_info (MsgFound total_files) ;;
      download_loop total_files 1 ftp_timelapse_files)
   else
     logger_info MsgNoNewFiles)%py.

(** Lines 148-152. *)
Definition no_files_handler (resp : exn) : M St unit :=
  if String.eqb (exn_str resp) "550 No files found" then
    logger_error MsgNoFilesInDirectory
  else
    raise resp.

(** Lines 99-155: the body of the second [try]. *)
Definition transfer_body (downloaded_files : list string) : M St unit :=
  (root <- nlst ;;
   if py_in (ftp_timelapse_folder args) root then
     (cwd (ftp_timelapse_folder args) ;;
      try_except (fetch_all downloaded_files) is_error_perm no_files_handler)
   else
     (logger_info (MsgFolderNotFound (ftp_timelapse_folder args)) ;;
      sys_exit 1))%py.

(** Lines 98-158. *)
Definition transfer_phase (downloaded_files : list string) : M St unit :=
  try_except (transfer_body downloaded_files) Exception
    (fun e =>
       (logger_error (MsgProgramFailed (exn_str e)) ;;
        sys_exit 1)%py).

Definition ftp_download : M St unit :=
  (downloaded_files <- connect_phase ;;
   transfer_phase downloaded_files)%py.

(** The status the process ends with: 0 when [ftp_download] returns, the
    argument of [sys.exit] otherwise (1 for an uncaught exception). *)
Definition exit_status (r : outcome unit) : Z :=
  match r with
  | Ok _ => 0
  | Exit code => code
  | Raise _ => 1
  end.

Definition run (w : World St) : Z * World St :=
  let (r, w') := ftp_download w in (exit_status r, w').

End Downloader.

(** ** Vocabulary of the properties *)

(** The exception that lines 148-150 treat as "nothing to download": an
    [ftplib.error_perm] whose text is exactly [550 No files found]. *)
Definition is_no_files (e : exn) : bool :=
  is_error_perm e && String.eqb (exn_str e) "550 No files found".

(** Events that create, change or remove a local file. *)
Definition touches_file (ev : event) : Prop :=
  match ev with
  | EvOpen _ _ | EvWrite _ _ | EvRemove _ _ => True
  | _ => False
  end.

(** Events that send something to the printer. *)
Definition is_ftp (ev : event) : Prop :=
  match ev with
  | EvFtp _ => True
  | _ => False
  end.

(** Events of lines 83-86. *)
Definition local_event (ev : event) : Prop :=
  match ev with
  | EvMakedirs _ | EvListdir _ => True
  | _ => False
  end.

(** Events of lines 83-96: the local scan, the handshake, the log. *)
Definition handshake_event (ev : event) : Prop :=
  match ev with
  | EvMakedirs _ | EvListdir _ | EvLog _ _
  | EvFtp (CONNECT _ _) | EvFtp (LOGIN _ _) | EvFtp PROT_P => True
  | _ => False
  end.

(** The events a run can add to the trace: the directory part of every
    local path is [args.download_dir]; the control connection goes to
    [args.ip], port 990; the login uses [args.user] and [args.password]; the
    only directory change is into [args.ftp_timelapse_folder]. *)
Definition script_event (args : Args) (ev : event) : Prop :=
  match ev with
  | EvMakedirs d | EvListdir d | EvOpen d _ | EvRemove d _ =>
      d = download_dir args
  | EvFtp (CONNECT h p) => h = ip args /\ p = 990
  | EvFtp (LOGIN u pw) => u = user args /\ pw = password args
  | EvFtp (CWD d) => d = ftp_timelapse_folder args
  | _ => True
  end.

(** The control connections opened during a run: host and port. *)
Fixpoint connections (t : list event) : list (option string * Z) :=
  match t with
  | [] => []
  | EvFtp (CONNECT h p) :: rest => (h, p) :: connections rest
  | _ :: rest => connections rest
  end.

(** [emits P m]: whatever [m] does, the trace only grows, and by events that
    satisfy [P]. *)
Definition emits {St A} (P : event -> Prop) (m : M St A) : Prop :=
  forall w, exists t, trace (snd (m w)) = (trace w ++ t)%list /\ Forall P t.

(** [no_exit m]: [m] never calls [sys.exit]. *)
Definition no_exit {St A} (m : M St A) : Prop :=
  forall w c, fst (m w) <> Exit c.

(** ** A scripted printer, for running the script on concrete inputs *)

Module Sim.

(** A download directory [dir] without sub-directories or links, on a file
    system that compares names exactly: the path [dir/name] leads to the
    entry [name] when [name] has no [/] and is neither [.] nor [..]; any
    other path leads out of the directory, or nowhere. *)
Definition plain_name (name : string) : bool :=
  negb (existsb (Ascii.eqb "/"%char) (String.list_ascii_of_string name))
  && negb (String.eqb name "") && negb (String.eqb name ".")
  && negb (String.eqb name "..").

Definition flat (dir path : string) : location :=
  let name :=
    String.substring (String.length dir + 1)
      (String.length path - (String.length dir + 1)) path in
  if String.prefix (dir +:+ "/") path && plain_name name
  then Entry name
  else Elsewhere path.

(** The same directory on a file system that also follows [./]: the paths
    [dir/name] and [dir/./name] lead to the same entry. *)
Fixpoint skip_dot (name : string) : string :=
  match name with
  | String "."%char (String "/"%char rest) => skip_dot rest
  | _ => name
  end.

Definition dotted (dir path : string) : location :=
  let name :=
    String.substring (String.length dir + 1)
      (String.length path - (String.length dir + 1)) path in
  if String.prefix (dir +:+ "/") path
  then flat dir (download_file_path dir (skip_dot name))
  else Elsewhere path.

(** Fixed answers for every call.  The environment state is one flag: whether
    [CWD] has moved the session into the timelapse folder, which tells the
    two [NLST] calls apart. *)
Record Script := {
  sc_locate : string -> location;
  sc_remove : string -> option exn;
  sc_makedirs : option exn;
  sc_listdir : option exn;
  sc_open : string -> option exn;
  sc_write : string -> option exn;
  sc_connect : option exn;
  sc_login : option exn;
  sc_prot_p : option exn;
  sc_root : exn + list string;
  sc_cwd : option exn;
  sc_folder : exn + list string;
  sc_size : string -> exn + option Z;
  sc_retr : string -> list (list Byte.byte) * option exn;
  sc_delete : string -> option exn
}.

Definition scripted (sc : Script) : Env bool :=
  {| os_locate := sc_locate sc;
     os_remove := fun _ f s => (sc_remove sc f, s);
     os_makedirs := fun _ s => (sc_makedirs sc, s);
     os_listdir := fun _ s => (sc_listdir sc, s);
     os_open := fun _ f s => (sc_open sc f, s);
     os_write := fun f _ s => (sc_write sc f, s);
     ftp_connect := fun _ _ s => (sc_connect sc, s);
     ftp_login := fun _ _ s => (sc_login sc, s);
     ftp_prot_p := fun s => (sc_prot_p sc, s);
     ftp_nlst := fun s : bool => (if s then sc_folder sc else sc_root sc, s);
     ftp_cwd := fun _ (s : bool) =>
       (sc_cwd sc, match sc_cwd sc with None => true | Some _ => s end);
     ftp_size := fun f s => (sc_size sc f, s);
     ftp_retr := fun f s => (sc_retr sc f, s);
     ftp_delete := fun f s => (sc_delete sc f, s) |}.

(** What goes wrong in a scenario. *)
Inductive fault :=
| NoFault
| MakedirsDenied
| LoginRejected
| FolderMissing
| FolderEmpty
| SizeRefused
| TransferBroken
| RemoveDenied
| DeleteDenied.

Definition makedirs_denied : exn :=
  Exn OSError "[Errno 13] Permission denied: '/opt/bambu/timelapse'".
Definition login_rejected : exn := Exn error_perm "530 Login incorrect.".
Definition no_files : exn := Exn error_perm "550 No files found".
Definition size_refused : exn := Exn error_perm "550 Could not get file size.".
Definition transfer_broken : exn :=
  Exn error_temp "426 Connection closed; transfer aborted.".
Definition delete_denied : exn := Exn error_perm "550 Permission denied.".
Definition remove_denied : exn :=
  Exn OSError "[Errno 13] Permission denied: '/opt/bambu/timelapse/a.avi'".

Definition chunk (n : nat) : list Byte.byte := repeat Byte.x00 n.

(** The printer of the scenario in the specification: the folder holds
    [a.avi] (1000 bytes, delivered as two chunks), [b.avi] (size 0) and
    [c.txt]; one fault may be injected.  With [SizeRefused] the size query
    for [a.avi] is refused and [b.avi] has 1000 bytes.  With [RemoveDenied]
    the transfer breaks and the partial file cannot be removed. *)
Definition script (ft : fault) : Script :=
  {| sc_locate := flat "/opt/bambu/timelapse";
     sc_remove := fun _ =>
       match ft with RemoveDenied => Some remove_denied | _ => None end;
     sc_makedirs :=
       match ft with MakedirsDenied => Some makedirs_denied | _ => None end;
     sc_listdir := None;
     sc_open := fun _ => None;
     sc_write := fun _ => None;
     sc_connect := None;
     sc_login :=
       match ft with LoginRejected => Some login_rejected | _ => None end;
     sc_prot_p := None;
     sc_root :=
       match ft with
       | FolderMissing => inr ["cache"; "model"]
       | _ => inr ["timelapse"; "cache"]
       end;
     sc_cwd := None;
     sc_folder :=
       match ft with
       | FolderEmpty => inl no_files
       | _ => inr ["a.avi"; "b.avi"; "c.txt"]
       end;
     sc_size := fun f =>
       match ft with
       | SizeRefused =>
           if String.eqb f "a.avi" then inl size_refused
           else inr (Some 1000)
       | _ => inr (Some (if String.eqb f "b.avi" then 0 else 1000))
       end;
     sc_retr := fun _ =>
       match ft with
       | TransferBroken | RemoveDenied =>
           ([chunk 600], Some transfer_broken)
       | _ => ([chunk 600; chunk 400], None)
       end;
     sc_delete := fun _ =>
       match ft with DeleteDenied => Some delete_denied | _ => None end |}.

Definition printer (ft : fault) : Env bool := scripted (script ft).

(** [--ip 192.168.1.20 --password 12345678 --download_dir /opt/bambu/timelapse],
    with [--port] and [-d] as given. *)
Definition cli (p : Z) (d : bool) : Args :=
  {| ip := Some "192.168.1.20";
     port := p;
     user := "bblp";
     password := Some "12345678";
     download_dir := "/opt/bambu/timelapse";
     ftp_timelapse_folder := "timelapse";
     delete_files_from_sd_card_after_download := d |}.

(** A fresh run: the download directory [d], nothing logged yet. *)
Definition start (d : option (gmap string (list Byte.byte))) : World bool :=
  {| fs := d; elsewhere := ∅; env_state := false; trace := [] |}.

End Sim.
(** ** Further vocabulary *)

(** A remote deletion. *)
Definition is_dele (ev : event) : Prop :=
  match ev with
  | EvFtp (DELE _) => True
  | _ => False
  end.

(** The files whose size was asked, in the order of the queries. *)
Fixpoint sized (t : list event) : list string :=
  match t with
  | [] => []
  | EvFtp (SIZE f) :: rest => f :: sized rest
  | _ :: rest => sized rest
  end.

(** The total the progress bar was advanced by. *)
Fixpoint progress (t : list event) : nat :=
  match t with
  | [] => 0
  | EvProgress n :: rest => n + progress rest
  | _ :: rest => progress rest
  end.

(** What the iteration of the loop for [f], at position [index] of
    [total_files], may add to the trace: every command, local file operation
    and log record names [f]; the position is the iteration's own; a [DELE]
    and its error record need the delete-after-download option. *)
Definition iteration_event (args : Args) (total_files index : nat)
    (f : string) (ev : event) : Prop :=
  match ev with
  | EvFtp (SIZE g) | EvFtp (RETR g) | EvWrite g _ => g = f
  | EvFtp (DELE g) =>
      g = f /\ delete_files_from_sd_card_after_download args = true
  | EvOpen d g | EvRemove d g => d = download_dir args /\ g = f
  | EvProgress _ => True
  | EvLog INFO (MsgZeroSize g) => g = f
  | EvLog INFO (MsgStarting i t g _) => i = index /\ t = total_files /\ g = f
  | EvLog ERROR (MsgDeleteFailed _) =>
      delete_files_from_sd_card_after_download args = true
  | EvLog ERROR (MsgDownloadFailed g _) => g = f
  | _ => False
  end.

(** What a run may add to the trace, given the parsed command line: the
    directory created and listed is [args.download_dir]; every file that is
    sized, fetched, written, removed or deleted has a name that ends with
    [.avi], and its local path is built from [args.download_dir] and that
    name; the control connection goes to [args.ip], port 990; the login uses
    [args.user] and [args.password]; the only directory change is into
    [args.ftp_timelapse_folder]. *)
Definition run_event (args : Args) (ev : event) : Prop :=
  match ev with
  | EvMakedirs d | EvListdir d => d = download_dir args
  | EvOpen d g | EvRemove d g =>
      d = download_dir args /\ endswith g ".avi" = true
  | EvWrite g _ => endswith g ".avi" = true
  | EvFtp (CONNECT h p) => h = ip args /\ p = 990
  | EvFtp (LOGIN u pw) => u = user args /\ pw = password args
  | EvFtp (CWD d) => d = ftp_timelapse_folder args
  | EvFtp (SIZE g) | EvFtp (RETR g) | EvFtp (DELE g) =>
      endswith g ".avi" = true
  | _ => True
  end.

(** [touches_only K m]: [m] leaves every local file whose location is not in
    [K] as it is. *)
Definition touches_only {St A} (K : location -> Prop) (m : M St A) : Prop :=
  forall w l, ~ K l -> file_at (snd (m w)) l = file_at w l.

(** The locations the paths of the files [files] lead to. *)
Definition reached {St} (env : Env St) (args : Args) (files : list string)
    (l : location) : Prop :=
  exists f, In f files
            /\ l = os_locate env (download_file_path (download_dir args) f).

(** ** Logging set-up: the name of the log file (line 30) *)

Definition in_chars (c : Ascii.ascii) (chars : string) : bool :=
  existsb (Ascii.eqb c) (String.list_ascii_of_string chars).

(** [s.rstrip(chars)]: [s] without its trailing characters that occur in
    [chars]. *)
Fixpoint rstrip (s chars : string) : string :=
  match s with
  | EmptyString => EmptyString
  | String c rest =>
      match rstrip rest chars with
      | EmptyString =>
          if in_chars c chars then EmptyString else String c EmptyString
      | kept => String c kept
      end
  end.

(** Line 30: [logger_name.rstrip('.log') + f'_{os.getlogin()}' + '.log']. *)
Definition log_name_ (logger_name login : string) : string :=
  rstrip logger_name ".log" +:+ "_" +:+ login +:+ ".log".

(** ** The implicit-TLS socket (lines 63-78) *)

(** A socket object: a plain one, or an [ssl.SSLSocket]. *)
Inductive socket :=
| PlainSocket (fd : nat)
| SSLSocket (fd : nat).

(** The attribute [_sock] of an [ImplicitFTP_TLS] object. *)
Record ImplicitFTP_TLS := { _sock : option socket }.

(** Lines 66-68, the part that concerns the socket: [self._sock = None]. *)
Definition ImplicitFTP_TLS_init : ImplicitFTP_TLS := {| _sock := None |}.

(** Lines 70-72: the getter. *)
Definition sock (self : ImplicitFTP_TLS) : option socket := _sock self.

(** Lines 74-78: the setter.  [wrap_socket] is [self.context.wrap_socket]:
    it raises, or returns an [SSLSocket] over the socket it was given. *)
Definition set_sock (wrap_socket : nat -> option exn)
    (self : ImplicitFTP_TLS) (value : option socket)
    : exn + ImplicitFTP_TLS :=
  match value with
  | Some (PlainSocket fd) =>
      match wrap_socket fd with
      | Some e => inl e
      | None => inr {| _sock := Some (SSLSocket fd) |}
      end
  | _ => inr {| _sock := value |}
  end.

(** A sequence of assignments to [sock]; one that raises leaves the object as
    it was. *)
Fixpoint assign_all (wrap_socket : nat -> option exn)
    (self : ImplicitFTP_TLS) (values : list (option socket))
    : ImplicitFTP_TLS :=
  match values with
  | [] => self
  | value :: rest =>
      match set_sock wrap_socket self value with
      | inl _ => assign_all wrap_socket self rest
      | inr self' => assign_all wrap_socket self' rest
      end
  end.

(** ** More scenarios *)

Module Scenario.

(** A download directory that already holds [a.avi] and a text file. *)
Definition stocked : gmap string (list Byte.byte) :=
  <["a.avi" := [Byte.x01; Byte.x02]]> (<["notes.txt" := [Byte.x03]]> ∅).

(** A download directory that already holds every video of the printer. *)
Definition complete : gmap string (list Byte.byte) :=
  <["a.avi" := [Byte.x01; Byte.x02]]> (<["b.avi" := []]> ∅).

(** The printer of [Sim.script], with other answers to [SIZE] and [CWD]. *)
Definition script (size_answer : string -> exn + option Z)
    (cwd_answer : option exn) : Sim.Script :=
  {| Sim.sc_locate := Sim.flat "/opt/bambu/timelapse";
     Sim.sc_remove := fun _ => None;
     Sim.sc_makedirs := None;
     Sim.sc_listdir := None;
     Sim.sc_open := fun _ => None;
     Sim.sc_write := fun _ => None;
     Sim.sc_connect := None;
     Sim.sc_login := None;
     Sim.sc_prot_p := None;
     Sim.sc_root := inr ["timelapse"; "cache"];
     Sim.sc_cwd := cwd_answer;
     Sim.sc_folder := inr ["a.avi"; "b.avi"; "c.txt"];
     Sim.sc_size := size_answer;
     Sim.sc_retr := fun _ => ([Sim.chunk 600; Sim.chunk 400], None);
     Sim.sc_delete := fun _ => None |}.

(** A printer whose reply to [SIZE] is not a 213 reply. *)
Definition size_unknown : Env bool :=
  Sim.scripted (script (fun _ => inr None) None).

(** A printer whose folder lists the one name [./a.avi], and a download
    directory on a file system that follows [./]. *)
Definition aliasing : Env bool :=
  Sim.scripted
    {| Sim.sc_locate := Sim.dotted "/opt/bambu/timelapse";
       Sim.sc_remove := fun _ => None;
       Sim.sc_makedirs := None;
       Sim.sc_listdir := None;
       Sim.sc_open := fun _ => None;
       Sim.sc_write := fun _ => None;
       Sim.sc_connect := None;
       Sim.sc_login := None;
       Sim.sc_prot_p := None;
       Sim.sc_root := inr ["timelapse"; "cache"];
       Sim.sc_cwd := None;
       Sim.sc_folder := inr ["./a.avi"];
       Sim.sc_size := fun _ => inr (Some 1000);
       Sim.sc_retr := fun _ => ([Sim.chunk 600; Sim.chunk 400], None);
       Sim.sc_delete := fun _ => None |}.

(** A printer that refuses the change of directory. *)
Definition cwd_refused : Env bool :=
  Sim.scripted (script (fun _ => inr (Some 1000)) (Some Sim.no_files)).

End Scenario.

(** * Properties *)

(** ** Strings and membership *)

Lemma substring_all (s : string) : String.substring 0 (String.length s) s = s.
Proof. induction s as [|c s IH]; simpl; [reflexivity | now rewrite IH]. Qed.

Lemma substring_append (p s : string) :
  String.substring (String.length p) (String.length s) (p +:+ s) = s.
Proof. induction p as [|c p IH]; simpl; [apply substring_all | exact IH]. Qed.

Lemma length_append (p s : string) :
  String.length (p +:+ s) = (String.length p + String.length s)%nat.
Proof. induction p as [|c p IH]; simpl; [reflexivity | now rewrite IH]. Qed.

Lemma substring_split (n : nat) (s : string) :
  (n <= String.length s)%nat ->
  s = String.substring 0 n s +:+
      String.substring n (String.length s - n) s.
Proof.
  revert n. induction s as [|c s IH]; intros [|n] Hn; simpl in *;
    try reflexivity; try lia.
  - now rewrite substring_all.
  - change (String c s = String c (String.substring 0 n s +:+
             String.substring n (String.length s - n) s)).
    f_equal. apply IH. lia.
Qed.

(** [endswith] is the suffix test. *)
Lemma endswith_spec (s suffix : string) :
  endswith s suffix = true <-> exists p, s = p +:+ suffix.
Proof.
  unfold endswith. rewrite andb_true_iff, Nat.leb_le, String.eqb_eq. split.
  - intros [Hle Hsub].
    exists (String.substring 0 (String.length s - String.length suffix) s).
    pose proof (substring_split (String.length s - String.length suffix) s
                  ltac:(lia)) as Hsplit.
    replace (String.length s - (String.length s - String.length suffix))%nat
      with (String.length suffix) in Hsplit by lia.
    now rewrite Hsub in Hsplit.
  - intros [p ->]. rewrite length_append. split; [lia|].
    replace (String.length p + String.length suffix - String.length suffix)%nat
      with (String.length p) by lia.
    apply substring_append.
Qed.

Lemma py_in_spec (x : string) (l : list string) :
  py_in x l = true <-> In x l.
Proof.
  unfold py_in. rewrite existsb_exists. split.
  - intros [y [Hy Heq]]. apply String.eqb_eq in Heq. now subst.
  - intros Hx. exists x. split; [exact Hx | apply String.eqb_refl].
Qed.

Lemma py_in_filter_avi (f : string) (D : list string) :
  endswith f ".avi" = true ->
  py_in f (List.filter (fun g => endswith g ".avi") D) = py_in f D.
Proof.
  intros Hf. apply eq_true_iff_eq. rewrite !py_in_spec, filter_In.
  intuition.
Qed.

(** ** C1: the download set *)

(** C1.  For every list [D] of the names in the local download directory (what
    [os.listdir] returns) and every remote listing [R], the list of files to
    download is exactly the entries of [R], in the order of [R], whose name
    ends with [.avi] and is not a name of [D]; so no name of [D] is ever in
    the download set. *)
Theorem download_set_exact (D R : list string) :
  let downloaded_files := List.filter (fun f => endswith f ".avi") D in
  download_set downloaded_files R
    = List.filter (fun f => endswith f ".avi" && negb (py_in f D)) R
  /\ (forall f, In f (download_set downloaded_files R) <->
                In f R /\ (exists p, f = p +:+ ".avi") /\ ~ In f D)
  /\ (forall f, In f D -> ~ In f (download_set downloaded_files R)).
Proof.
  intros downloaded_files.
  assert (Heq : download_set downloaded_files R
    = List.filter (fun f => endswith f ".avi" && negb (py_in f D)) R).
  { unfold download_set, downloaded_files.
    induction R as [|f R IH]; simpl; [reflexivity|].
    destruct (endswith f ".avi") eqn:Hf; simpl; [|exact IH].
    rewrite (py_in_filter_avi f D Hf).
    destruct (py_in f D); simpl; [exact IH | now rewrite IH]. }
  assert (Hmem : forall f, In f (download_set downloaded_files R) <->
                In f R /\ (exists p, f = p +:+ ".avi") /\ ~ In f D).
  { intros f. rewrite Heq, filter_In, andb_true_iff, negb_true_iff.
    rewrite endswith_spec, <- not_true_iff_false, py_in_spec. tauto. }
  split; [exact Heq | split; [exact Hmem|]].
  intros f HD Hin. apply Hmem in Hin. tauto.
Qed.

(** ** What a computation appends to the trace *)

Section Facts.
Context {St : Type}.

Lemma emits_nothing {A} (P : event -> Prop) (m : M St A) :
  (forall w, trace (snd (m w)) = trace w) -> emits P m.
Proof.
  intros H w. exists []. rewrite H, app_nil_r. split; [reflexivity | constructor].
Qed.

Lemma emits_ret {A} P (a : A) : emits P (ret a : M St A).
Proof. now apply emits_nothing. Qed.

Lemma emits_raise {A} P e : emits P (raise e : M St A).
Proof. now apply emits_nothing. Qed.

Lemma emits_sys_exit {A} P c : emits P (sys_exit c : M St A).
Proof. now apply emits_nothing. Qed.

Lemma emits_get_fs P : emits P (get_fs : M St _).
Proof. now apply emits_nothing. Qed.

Lemma emits_set_fs P d : emits P (set_fs d : M St _).
Proof. now apply emits_nothing. Qed.

Lemma emits_get_file P l : emits P (get_file l : M St _).
Proof. now apply emits_nothing. Qed.

Lemma emits_set_file P l c : emits P (set_file l c : M St _).
Proof. apply emits_nothing. intros w. now destruct l. Qed.

Lemma emits_ask {A} P (f : St -> A * St) : emits P (ask f).
Proof.
  apply emits_nothing. intros w. unfold ask.
  now destruct (f (env_state w)).
Qed.

Lemma emits_check P r : emits P (check r : M St unit).
Proof. destruct r; [apply emits_raise | apply emits_ret]. Qed.

Lemma emits_emit (P : event -> Prop) ev : P ev -> emits P (emit ev : M St unit).
Proof.
  intros H w. exists [ev]. split; [reflexivity | now repeat constructor].
Qed.

Lemma emits_bind {A B} P (m : M St A) (k : A -> M St B) :
  emits P m -> (forall a, emits P (k a)) -> emits P (bind m k).
Proof.
  intros Hm Hk w. unfold bind.
  destruct (Hm w) as [t1 [E1 F1]].
  destruct (m w) as [[a|e|c] w1]; simpl in E1.
  - destruct (Hk a w1) as [t2 [E2 F2]].
    exists (t1 ++ t2)%list. rewrite E2, E1, app_assoc.
    split; [reflexivity | now apply Forall_app].
  - now exists t1.
  - now exists t1.
Qed.

Lemma emits_try {A} P (body : M St A) catches handler :
  emits P body -> (forall e, emits P (handler e)) ->
  emits P (try_except body catches handler).
Proof.
  intros Hb Hh w. unfold try_except.
  destruct (Hb w) as [t1 [E1 F1]].
  destruct (body w) as [[a|e|c] w1]; simpl in E1.
  - now exists t1.
  - destruct (catches e); [|now exists t1].
    destruct (Hh e w1) as [t2 [E2 F2]].
    exists (t1 ++ t2)%list. rewrite E2, E1, app_assoc.
    split; [reflexivity | now apply Forall_app].
  - now exists t1.
Qed.

Lemma emits_weaken {A} (P Q : event -> Prop) (m : M St A) :
  (forall ev, P ev -> Q ev) -> emits P m -> emits Q m.
Proof.
  intros HPQ Hm w. destruct (Hm w) as [t [E F]]. exists t.
  split; [exact E | eapply Forall_impl; eauto].
Qed.

Lemma no_exit_ret {A} (a : A) : no_exit (ret a : M St A).
Proof. intros w c. discriminate. Qed.

Lemma no_exit_raise {A} e : no_exit (raise e : M St A).
Proof. intros w c. discriminate. Qed.

Lemma no_exit_get_fs : no_exit (get_fs : M St _).
Proof. intros w c. discriminate. Qed.

Lemma no_exit_set_fs d : no_exit (set_fs d : M St _).
Proof. intros w c. discriminate. Qed.

Lemma no_exit_get_file l : no_exit (get_file l : M St _).
Proof. intros w c. discriminate. Qed.

Lemma no_exit_set_file l d : no_exit (set_file l d : M St _).
Proof. intros w c. discriminate. Qed.

Lemma no_exit_emit ev : no_exit (emit ev : M St _).
Proof. intros w c. discriminate. Qed.

Lemma no_exit_ask {A} (f : St -> A * St) : no_exit (ask f).
Proof. intros w c. unfold ask. now destruct (f (env_state w)). Qed.

Lemma no_exit_check r : no_exit (check r : M St unit).
Proof. destruct r; [apply no_exit_raise | apply no_exit_ret]. Qed.

Lemma no_exit_bind {A B} (m : M St A) (k : A -> M St B) :
  no_exit m -> (forall a, no_exit (k a)) -> no_exit (bind m k).
Proof.
  intros Hm Hk w c. unfold bind. specialize (Hm w).
  destruct (m w) as [[a|e|c'] w1]; simpl in *.
  - apply Hk.
  - discriminate.
  - now destruct (Hm c').
Qed.

Lemma no_exit_try {A} (body : M St A) catches handler :
  no_exit body -> (forall e, no_exit (handler e)) ->
  no_exit (try_except body catches handler).
Proof.
  intros Hb Hh w c. unfold try_except. specialize (Hb w).
  destruct (body w) as [[a|e|c'] w1]; simpl in *.
  - discriminate.
  - destruct (catches e); [apply Hh | discriminate].
  - now destruct (Hb c').
Qed.

End Facts.

(** One step of a proof of [emits]: follow the structure of the computation. *)
Ltac emits_step :=
  lazymatch goal with
  | |- emits _ (bind _ _) => apply emits_bind; [|intros]
  | |- emits _ (try_except _ _ _) => apply emits_try; [|intros]
  | |- emits _ (ret _) => apply emits_ret
  | |- emits _ (raise _) => apply emits_raise
  | |- emits _ (sys_exit _) => apply emits_sys_exit
  | |- emits _ get_fs => apply emits_get_fs
  | |- emits _ (set_fs _) => apply emits_set_fs
  | |- emits _ (get_file _) => apply emits_get_file
  | |- emits _ (set_file _ _) => apply emits_set_file
  | |- emits _ (ask _) => apply emits_ask
  | |- emits _ (check _) => apply emits_check
  | |- emits _ (emit _) => apply emits_emit
  | |- emits _ (match ?x with _ => _ end) => destruct x
  end.

Ltac no_exit_step :=
  lazymatch goal with
  | |- no_exit (bind _ _) => apply no_exit_bind; [|intros]
  | |- no_exit (try_except _ _ _) => apply no_exit_try; [|intros]
  | |- no_exit (ret _) => apply no_exit_ret
  | |- no_exit (raise _) => apply no_exit_raise
  | |- no_exit get_fs => apply no_exit_get_fs
  | |- no_exit (set_fs _) => apply no_exit_set_fs
  | |- no_exit (get_file _) => apply no_exit_get_file
  | |- no_exit (set_file _ _) => apply no_exit_set_file
  | |- no_exit (ask _) => apply no_exit_ask
  | |- no_exit (check _) => apply no_exit_check
  | |- no_exit (emit _) => apply no_exit_emit
  | |- no_exit (match ?x with _ => _ end) => destruct x
  end.

Section Properties.
Context {St : Type}.
Variable env : Env St.
Variable args : Args.

(** *** Sequencing *)

Lemma bind_ok {A B} (m : M St A) (k : A -> M St B) w a :
  fst (m w) = Ok a -> bind m k w = k a (snd (m w)).
Proof. unfold bind. destruct (m w) as [r w1]. simpl. now intros ->. Qed.

Lemma bind_raise {A B} (m : M St A) (k : A -> M St B) w e :
  fst (m w) = Raise e -> bind m k w = (Raise e, snd (m w)).
Proof. unfold bind. destruct (m w) as [r w1]. simpl. now intros ->. Qed.

(** *** Local files *)

Lemma file_at_update_ne (l l' : location) (c : option (list Byte.byte))
    (w : World St) :
  l <> l' -> file_at (update_file l c w) l' = file_at w l'.
Proof.
  intros Hne. destruct l as [n|p], l' as [n'|p']; simpl; try reflexivity.
  - unfold contents. simpl. destruct (fs w) as [m|]; simpl; [|reflexivity].
    apply lookup_partial_alter_ne. congruence.
  - apply lookup_partial_alter_ne. congruence.
Qed.

(** The size query changes no local file nor, beyond the [SIZE] command, the
    trace. *)
Lemma size_world (f : string) (w : World St) :
  fs (snd (size env f w)) = fs w
  /\ trace (snd (size env f w)) = (trace w ++ [EvFtp (SIZE f)])%list.
Proof.
  unfold size, bind, emit, ask. simpl.
  now destruct (ftp_size env f (env_state w)) as [[e|n] s'].
Qed.

Lemma size_elsewhere (f : string) (w : World St) :
  elsewhere (snd (size env f w)) = elsewhere w.
Proof.
  unfold size, bind, emit, ask. simpl.
  now destruct (ftp_size env f (env_state w)) as [[e|n] s'].
Qed.

Lemma float_overflows_0 : float_overflows 0 = false.
Proof. vm_compute. reflexivity. Qed.

(** One iteration, once the size is known, fits a float and is not zero. *)
Lemma fetch_one_sized (total_files index : nat) (f : string) (w : World St)
    (n : Z) :
  fst (size env f w) = Ok (Some n) -> n <> 0 -> float_overflows n = false ->
  fetch_one env args total_files index f w
  = try_except
      (bind (download env args total_files index f n)
            (fun _ => delete_after env args f))
      Exception (cleanup env args f) (snd (size env f w)).
Proof.
  intros Hsize Hn Hfits. unfold fetch_one.
  rewrite (bind_ok _ _ _ _ Hsize). unfold filesize_mb. rewrite Hfits.
  unfold bind at 1. unfold ret at 1.
  apply Z.eqb_neq in Hn. now rewrite Hn.
Qed.

(** The handler of the per-file [try] when there is no file at the path:
    it only logs the failure. *)
Lemma cleanup_absent (f : string) (e : exn) (w : World St) :
  file_at w (os_locate env (download_file_path (download_dir args) f)) = None ->
  cleanup env args f e w
  = (Ok tt, {| fs := fs w; elsewhere := elsewhere w;
               env_state := env_state w;
               trace := (trace w
                 ++ [EvLog ERROR (MsgDownloadFailed f (exn_str e))])%list |}).
Proof.
  intros Hf.
  unfold cleanup, path_exists, bind, get_file, ret, logger_error, emit.
  now rewrite Hf.
Qed.

(** The handler when there is a file at the path and [os.remove] returns:
    the file is removed, and only that file; the failure is logged. *)
Lemma cleanup_removed (f : string) (e : exn) (w : World St) :
  let path := os_locate env (download_file_path (download_dir args) f) in
  is_Some (file_at w path) ->
  fst (os_remove env (download_dir args) f (env_state w)) = None ->
  let w' := snd (cleanup env args f e w) in
  fst (cleanup env args f e w) = Ok tt
  /\ file_at w' path = None
  /\ (forall l, l <> path -> file_at w' l = file_at w l)
  /\ trace w'
     = (trace w ++ [EvRemove (download_dir args) f;
                    EvLog ERROR (MsgDownloadFailed f (exn_str e))])%list.
Proof.
  intros path [c Hf] Hrm.
  unfold cleanup, path_exists, remove, bind, get_file, set_file, ret, raise,
    logger_error, emit, ask, check. fold path. simpl. rewrite Hf. simpl.
  destruct (os_remove env (download_dir args) f (env_state w)) as [r s'].
  simpl in Hrm. subst r. simpl.
  assert (Hf' : file_at
            {| fs := fs w; elsewhere := elsewhere w; env_state := s';
               trace := (trace w ++ [EvRemove (download_dir args) f])%list |}
            path = Some c) by (destruct path; exact Hf).
  rewrite Hf'. simpl.
  split; [reflexivity|]. split; [|split].
  - destruct path as [n|p]; simpl; unfold contents; simpl.
    + destruct (fs w) as [m|]; simpl;
        [apply lookup_partial_alter_eq | apply lookup_empty].
    + apply lookup_partial_alter_eq.
  - intros l Hl.
    destruct path as [n|p], l as [n'|p']; simpl; unfold contents; simpl;
      try reflexivity.
    + destruct (fs w) as [m|]; simpl; [|reflexivity].
      apply lookup_partial_alter_ne. congruence.
    + apply lookup_partial_alter_ne. congruence.
  - destruct path; simpl; now rewrite <- app_assoc.
Qed.

(** The handler when there is a file at the path and [os.remove] raises: the
    exception leaves the handler, the file stays, nothing is logged. *)
Lemma cleanup_refused (f : string) (e e' : exn) (w : World St) :
  let path := os_locate env (download_file_path (download_dir args) f) in
  is_Some (file_at w path) ->
  fst (os_remove env (download_dir args) f (env_state w)) = Some e' ->
  let w' := snd (cleanup env args f e w) in
  fst (cleanup env args f e w) = Raise e'
  /\ fs w' = fs w
  /\ elsewhere w' = elsewhere w
  /\ trace w' = (trace w ++ [EvRemove (download_dir args) f])%list.
Proof.
  intros path [c Hf] Hrm.
  unfold cleanup, path_exists, remove, bind, get_file, set_file, ret, raise,
    logger_error, emit, ask, check. fold path. simpl. rewrite Hf. simpl.
  destruct (os_remove env (download_dir args) f (env_state w)) as [r s'].
  simpl in Hrm. subst r. simpl. auto.
Qed.

(** When the operating system never refuses the removal of the file, the
    handler completes and no file is left at the path. *)
Lemma cleanup_completes (f : string) (e : exn) (w : World St) :
  (forall s, fst (os_remove env (download_dir args) f s) = None) ->
  let path := os_locate env (download_file_path (download_dir args) f) in
  let w' := snd (cleanup env args f e w) in
  fst (cleanup env args f e w) = Ok tt
  /\ file_at w' path = None
  /\ last (trace w') = Some (EvLog ERROR (MsgDownloadFailed f (exn_str e))).
Proof.
  intros Hrm path w'.
  destruct (file_at w path) as [c|] eqn:Hf.
  - destruct (cleanup_removed f e w (ex_intro _ c Hf) (Hrm _))
      as (Hok & Hnone & _ & Ht).
    fold w' in Hnone, Ht. split; [exact Hok|]. split; [exact Hnone|].
    rewrite Ht.
    change [EvRemove (download_dir args) f;
            EvLog ERROR (MsgDownloadFailed f (exn_str e))]
      with ([EvRemove (download_dir args) f]
              ++ [EvLog ERROR (MsgDownloadFailed f (exn_str e))])%list.
    rewrite app_assoc. apply last_snoc.
  - unfold w'. rewrite (cleanup_absent f e w Hf). simpl.
    split; [reflexivity|]. split; [|apply last_snoc].
    destruct path; exact Hf.
Qed.

(** The remote deletion never makes the iteration fail. *)
Lemma delete_after_ok (f : string) (w : World St) : fst (delete_after env args f w) = Ok tt.
Proof.
  unfold delete_after, try_except, delete, bind, emit, ask, check,
    logger_error, Exception, ret, raise.
  destruct (delete_files_from_sd_card_after_download args); simpl;
    [|reflexivity].
  now destruct (ftp_delete env f (env_state w)) as [[e|] s'].
Qed.

(** One iteration, when the size is zero. *)
Lemma fetch_one_zero (total_files index : nat) (f : string) (w : World St) :
  fst (size env f w) = Ok (Some 0) ->
  fetch_one env args total_files index f w
  = (Ok tt, {| fs := fs w; elsewhere := elsewhere w;
               env_state := env_state (snd (size env f w));
               trace := (trace w ++ [EvFtp (SIZE f);
                                     EvLog INFO (MsgZeroSize f)])%list |}).
Proof.
  intros Hsize. unfold fetch_one.
  rewrite (bind_ok _ _ _ _ Hsize). unfold filesize_mb.
  rewrite float_overflows_0.
  unfold bind at 1. unfold ret at 1. simpl.
  unfold logger_info, emit.
  destruct (size_world f w) as [Hfs Htr].
  now rewrite Hfs, Htr, size_elsewhere, <- app_assoc.
Qed.

(** The loop, once the iteration for its first file has ended normally. *)
Lemma download_loop_next (total_files index : nat) (f : string)
    (rest : list string) (w : World St) :
  fst (fetch_one env args total_files index f w) = Ok tt ->
  download_loop env args total_files index (f :: rest) w
  = download_loop env args total_files (S index) rest
      (snd (fetch_one env args total_files index f w)).
Proof. intros Hok. simpl. now rewrite (bind_ok _ _ w tt Hok). Qed.

(** The loop, when the iteration for its first file raises. *)
Lemma download_loop_stops (total_files index : nat) (f : string)
    (rest : list string) (w : World St) (e : exn) :
  fst (fetch_one env args total_files index f w) = Raise e ->
  download_loop env args total_files index (f :: rest) w
  = (Raise e, snd (fetch_one env args total_files index f w)).
Proof. intros Hr. simpl. now rewrite (bind_raise _ _ w e Hr). Qed.

(** ** C4: entries of size zero *)

(** C4.  When the size query for [f] answers 0, the iteration for [f] leaves
    the download directory, and every file elsewhere, as it is, sends nothing
    but the [SIZE] command, logs the skip notice, and the loop goes on with
    the files after [f]. *)
Theorem zero_size_skipped (total_files index : nat) (f : string)
    (rest : list string) (w : World St) :
  fst (size env f w) = Ok (Some 0) ->
  let w' := snd (fetch_one env args total_files index f w) in
  fst (fetch_one env args total_files index f w) = Ok tt
  /\ fs w' = fs w
  /\ elsewhere w' = elsewhere w
  /\ trace w' = (trace w ++ [EvFtp (SIZE f); EvLog INFO (MsgZeroSize f)])%list
  /\ download_loop env args total_files index (f :: rest) w
     = download_loop env args total_files (S index) rest w'.
Proof.
  intros Hsize w'.
  pose proof (fetch_one_zero total_files index f w Hsize) as Hrun.
  assert (Hok : fst (fetch_one env args total_files index f w) = Ok tt)
    by now rewrite Hrun.
  split; [exact Hok|].
  unfold w'. rewrite Hrun at 1 2 3. simpl.
  split; [reflexivity|]. split; [reflexivity|]. split; [reflexivity|].
  now apply download_loop_next.
Qed.

(** When the transfer raises, the iteration is the handler run on the world
    the transfer left. *)
Lemma fetch_one_failed (total_files index : nat) (f : string)
    (w : World St) (n : Z) (e : exn) :
  fst (size env f w) = Ok (Some n) ->
  n <> 0 ->
  float_overflows n = false ->
  fst (download env args total_files index f n (snd (size env f w)))
    = Raise e ->
  fetch_one env args total_files index f w
    = cleanup env args f e
        (snd (download env args total_files index f n (snd (size env f w)))).
Proof.
  intros Hsize Hn Hfits Hdl.
  rewrite (fetch_one_sized _ _ _ _ _ Hsize Hn Hfits).
  unfold try_except.
  now rewrite (bind_raise _ _ _ _ Hdl).
Qed.

(** ** C5: the partial file *)

(** C5 (amended).  When the transfer of [f] (opening the local file,
    streaming the chunks into it) raises, the handler removes the file at the
    path of [f] if there is one.  When there is none, or [os.remove]
    returns, the iteration ends normally with no file at the path of [f],
    the other files are as the transfer left them, and the loop goes on with
    the files after [f].  When [os.remove] raises, its exception leaves the
    handler and the loop: the partial file stays, the failure of the
    transfer is not logged, and no later file is looked at. *)
Theorem partial_file_removed (total_files index : nat) (f : string)
    (rest : list string) (w : World St) (n : Z) (e : exn) :
  fst (size env f w) = Ok (Some n) ->
  n <> 0 ->
  float_overflows n = false ->
  let w1 := snd (size env f w) in
  fst (download env args total_files index f n w1) = Raise e ->
  let w2 := snd (download env args total_files index f n w1) in
  let w3 := snd (fetch_one env args total_files index f w) in
  let path := os_locate env (download_file_path (download_dir args) f) in
  let removal := fst (os_remove env (download_dir args) f (env_state w2)) in
  ((file_at w2 path = None \/ removal = None) ->
   fst (fetch_one env args total_files index f w) = Ok tt
   /\ file_at w3 path = None
   /\ (forall l, l <> path -> file_at w3 l = file_at w2 l)
   /\ (is_Some (file_at w2 path) ->
       In (EvRemove (download_dir args) f) (trace w3))
   /\ last (trace w3) = Some (EvLog ERROR (MsgDownloadFailed f (exn_str e)))
   /\ download_loop env args total_files index (f :: rest) w
      = download_loop env args total_files (S index) rest w3)
  /\ (forall e',
        is_Some (file_at w2 path) -> removal = Some e' ->
        fst (fetch_one env args total_files index f w) = Raise e'
        /\ file_at w3 path = file_at w2 path
        /\ trace w3 = (trace w2 ++ [EvRemove (download_dir args) f])%list
        /\ download_loop env args total_files index (f :: rest) w
           = (Raise e', w3)).
Proof.
  intros Hsize Hn Hfits w1 Hdl w2 w3 path removal.
  pose proof (fetch_one_failed total_files index f w n e Hsize Hn Hfits Hdl)
    as Hrun.
  fold w1 in Hrun. fold w2 in Hrun.
  split.
  - intros Hcase.
    destruct (file_at w2 path) as [c|] eqn:Hf.
    + destruct Hcase as [Hcase|Hrm]; [discriminate|].
      destruct (cleanup_removed f e w2 (ex_intro _ c Hf) Hrm)
        as (Hok & Hnone & Hothers & Ht).
      unfold w3. rewrite Hrun.
      split; [exact Hok|]. split; [exact Hnone|]. split; [exact Hothers|].
      split; [|split].
      * intros _. rewrite Ht. apply in_or_app. right. now left.
      * rewrite Ht.
        change [EvRemove (download_dir args) f;
                EvLog ERROR (MsgDownloadFailed f (exn_str e))]
          with ([EvRemove (download_dir args) f]
                  ++ [EvLog ERROR (MsgDownloadFailed f (exn_str e))])%list.
        rewrite app_assoc. apply last_snoc.
      * rewrite <- Hrun. apply download_loop_next. now rewrite Hrun.
    + pose proof (cleanup_absent f e w2 Hf) as Hc.
      assert (Hok : fst (fetch_one env args total_files index f w) = Ok tt)
        by now rewrite Hrun, Hc.
      assert (Hw3 : w3 = snd (cleanup env args f e w2))
        by (unfold w3; now rewrite Hrun).
      rewrite Hc in Hw3. simpl in Hw3.
      split; [exact Hok|].
      split; [rewrite Hw3; destruct path; exact Hf|].
      split; [intros l _; rewrite Hw3; now destruct l|].
      split; [intros [c Hc']; discriminate|].
      split; [rewrite Hw3; apply last_snoc|].
      now apply download_loop_next.
  - intros e' Hf Hrm.
    destruct (cleanup_refused f e e' w2 Hf Hrm) as (Hr & Hfs & Hel & Ht).
    unfold w3. rewrite Hrun.
    split; [exact Hr|]. split; [|split; [exact Ht|]].
    + destruct path; simpl; unfold contents; now rewrite ?Hfs, ?Hel.
    + rewrite <- Hrun. apply download_loop_stops. now rewrite Hrun.
Qed.

(** *** The transfer of one file *)

Lemma deliver_no_exit (fhandle : location) (f : string)
    (chunks : list (list Byte.byte)) :
  no_exit (deliver (callback env fhandle f) chunks).
Proof.
  induction chunks as [|data chunks IH]; simpl.
  - apply no_exit_ret.
  - apply no_exit_bind; [|intros; exact IH].
    unfold callback, write. repeat no_exit_step.
Qed.

Lemma download_no_exit (total_files index : nat) (f : string) (n : Z) :
  no_exit (download env args total_files index f n).
Proof.
  unfold download, logger_info, open_wb, retrbinary.
  repeat no_exit_step. apply deliver_no_exit.
Qed.

Lemma callback_keeps (fhandle : location) (f : string)
    (data : list Byte.byte) (w : World St) :
  is_Some (file_at w fhandle) ->
  is_Some (file_at (snd (callback env fhandle f data w)) fhandle).
Proof.
  unfold callback, write, bind, emit, ask, check, get_file, set_file, ret,
    raise.
  simpl. intros Hf.
  destruct (os_write env f data (env_state w)) as [[e|] s']; simpl.
  - destruct fhandle; exact Hf.
  - destruct fhandle as [n|p]; simpl in *; unfold contents in *; simpl in *.
    + destruct (fs w) as [m|]; simpl in *.
      * rewrite lookup_partial_alter_eq. eauto.
      * exact Hf.
    + rewrite lookup_partial_alter_eq. eauto.
Qed.

Lemma deliver_keeps (fhandle : location) (f : string)
    (chunks : list (list Byte.byte)) (w : World St) :
  is_Some (file_at w fhandle) ->
  is_Some (file_at (snd (deliver (callback env fhandle f) chunks w)) fhandle).
Proof.
  revert w. induction chunks as [|data chunks IH]; intros w Hf; simpl.
  - exact Hf.
  - pose proof (callback_keeps fhandle f data w Hf) as Hk. unfold bind.
    destruct (callback env fhandle f data w) as [[[]|e|c] w1]; simpl in *;
      auto.
Qed.

(** [open] that returns has created or truncated the file at the path, and
    hands out that location. *)
Lemma open_wb_ok (dir f : string) (w : World St) (fhandle : location) :
  fst (open_wb env dir f w) = Ok fhandle ->
  fhandle = os_locate env (download_file_path dir f)
  /\ file_at (snd (open_wb env dir f w)) fhandle = Some []
  /\ is_Some (fs w).
Proof.
  unfold open_wb, bind, emit, ask, check, get_fs, set_file, ret, raise.
  simpl.
  destruct (os_open env dir f (env_state w)) as [[e|] s1]; simpl;
    [discriminate|].
  destruct (fs w) as [m|] eqn:Hm; simpl; [|discriminate].
  intros [= <-]. split; [reflexivity|]. split; [|eauto].
  destruct (os_locate env (download_file_path dir f)) as [n|p]; simpl;
    unfold contents; simpl; rewrite ?Hm; simpl;
    apply lookup_partial_alter_eq.
Qed.

(** A transfer that completes leaves a local file at the path of [f]. *)
Lemma download_ok_present (total_files index : nat) (f : string) (n : Z)
    (w : World St) :
  fst (download env args total_files index f n w) = Ok tt ->
  is_Some (file_at (snd (download env args total_files index f n w))
             (os_locate env (download_file_path (download_dir args) f))).
Proof.
  set (w' := snd (logger_info (MsgStarting index total_files f n) w)).
  assert (E : download env args total_files index f n w
            = bind (open_wb env (download_dir args) f)
                (fun fhandle => retrbinary env f (callback env fhandle f)) w')
    by reflexivity.
  rewrite E. clear E. unfold bind at 1 2.
  pose proof (open_wb_ok (download_dir args) f w') as Hopen.
  destruct (open_wb env (download_dir args) f w') as [[fhandle|e|c] w1];
    simpl in *; try discriminate.
  destruct (Hopen fhandle eq_refl) as (-> & Hf & _).
  unfold retrbinary, bind, emit, ask. simpl.
  destruct (ftp_retr env f (env_state w1)) as [[chunks err] s2]. simpl.
  match goal with |- context [deliver _ _ ?w0] => set (w2 := w0) end.
  assert (Hf2 : is_Some (file_at w2
                  (os_locate env (download_file_path (download_dir args) f)))).
  { unfold w2.
    destruct (os_locate env (download_file_path (download_dir args) f));
      unfold file_at, contents in *; simpl in *; rewrite Hf; eauto. }
  pose proof (deliver_keeps _ f chunks w2 Hf2) as Hk.
  destruct (deliver _ chunks w2) as [[[]|e|c] w3]; simpl in *;
    try discriminate.
  destruct err; simpl; [discriminate|]. intros _. exact Hk.
Qed.

(** ** C6: a failed remote deletion *)

(** C6.  With the delete-after-download option on, when [f], whose size
    line 112 could convert, has been transferred and the remote deletion of
    [f] raises, the iteration ends normally: the local files are as the
    transfer left them, so the local copy of [f] exists; the only events
    after the transfer are the [DELE] command and the deletion error in the
    log (no removal of the local file, no download failure); and the loop
    goes on with the files after [f]. *)
Theorem deletion_failure_keeps_local_copy (total_files index : nat)
    (f : string) (rest : list string) (w : World St) (n : Z) (e : exn) :
  delete_files_from_sd_card_after_download args = true ->
  fst (size env f w) = Ok (Some n) ->
  n <> 0 ->
  float_overflows n = false ->
  let w1 := snd (size env f w) in
  fst (download env args total_files index f n w1) = Ok tt ->
  let w2 := snd (download env args total_files index f n w1) in
  fst (delete env f w2) = Raise e ->
  let w3 := snd (fetch_one env args total_files index f w) in
  fst (fetch_one env args total_files index f w) = Ok tt
  /\ fs w3 = fs w2
  /\ elsewhere w3 = elsewhere w2
  /\ is_Some (file_at w3
                (os_locate env (download_file_path (download_dir args) f)))
  /\ trace w3
     = (trace w2 ++ [EvFtp (DELE f);
                     EvLog ERROR (MsgDeleteFailed (exn_str e))])%list
  /\ download_loop env args total_files index (f :: rest) w
     = download_loop env args total_files (S index) rest w3.
Proof.
  intros Hflag Hsize Hn Hfits w1 Hdl w2 Hdel w3.
  pose proof (download_ok_present _ _ _ _ _ Hdl) as Hpresent.
  fold w2 in Hpresent.
  assert (Hrun : fetch_one env args total_files index f w
    = (Ok tt, {| fs := fs w2; elsewhere := elsewhere w2;
                 env_state := env_state (snd (delete env f w2));
                 trace := (trace w2 ++ [EvFtp (DELE f);
                     EvLog ERROR (MsgDeleteFailed (exn_str e))])%list |})).
  { rewrite (fetch_one_sized _ _ _ _ _ Hsize Hn Hfits). fold w1.
    unfold try_except at 1. rewrite (bind_ok _ _ _ _ Hdl). fold w2.
    unfold delete_after. rewrite Hflag.
    revert Hdel. unfold try_except, delete, bind, emit, ask, check,
      logger_error, Exception, raise, ret. simpl.
    destruct (ftp_delete env f (env_state w2)) as [[e'|] s']; simpl;
      [|discriminate].
    intros [= ->]. now rewrite <- app_assoc. }
  assert (Hok : fst (fetch_one env args total_files index f w) = Ok tt)
    by now rewrite Hrun.
  pose proof (download_loop_next total_files index f rest w Hok) as Hloop.
  unfold w3. rewrite Hrun in Hloop |- *. simpl in *.
  repeat split; assumption.
Qed.

(** ** C2: failures of one file *)

Lemma fetch_one_no_exit (total_files index : nat) (f : string) :
  no_exit (fetch_one env args total_files index f).
Proof.
  unfold fetch_one, size, filesize_mb, logger_info, delete_after, cleanup,
    path_exists, remove, logger_error, delete.
  repeat no_exit_step; apply download_no_exit.
Qed.

(** Once the size is known and line 112 has converted it, the iteration ends
    normally, provided [os.remove] does not refuse the path of [f]. *)
Lemma fetch_one_ok (total_files index : nat) (f : string) (w : World St)
    (n : Z) :
  fst (size env f w) = Ok (Some n) ->
  float_overflows n = false ->
  (forall s, fst (os_remove env (download_dir args) f s) = None) ->
  fst (fetch_one env args total_files index f w) = Ok tt.
Proof.
  intros Hsize Hfits Hrm. destruct (Z.eq_dec n 0) as [->|Hn].
  - now rewrite (fetch_one_zero total_files index f w Hsize).
  - rewrite (fetch_one_sized _ _ _ _ _ Hsize Hn Hfits).
    unfold try_except, bind.
    pose proof (download_no_exit total_files index f n
                  (snd (size env f w))) as Hne.
    destruct (download env args total_files index f n (snd (size env f w)))
      as [[[]|e|c] w2]; simpl in *.
    + pose proof (delete_after_ok f w2) as Hd.
      destruct (delete_after env args f w2) as [[[]|e|c] w3];
        simpl in *; congruence.
    + apply (cleanup_completes f e w2 Hrm).
    + now destruct (Hne c).
Qed.

(** C2 (amended).  Once the size of [f] is known and line 112 has converted
    it, nothing that happens while [f] is streamed ends the run, provided
    the operating system does not refuse to remove the file at the path of
    [f]: the iteration for [f] ends normally and the loop goes on with the
    files after [f]; and when the transfer raises, the error is logged with
    the file name and no file is kept at the path of [f]. *)
Theorem streaming_failure_non_fatal (total_files index : nat) (f : string)
    (rest : list string) (w : World St) (n : Z) :
  fst (size env f w) = Ok (Some n) ->
  float_overflows n = false ->
  (forall s, fst (os_remove env (download_dir args) f s) = None) ->
  let w1 := snd (size env f w) in
  let w' := snd (fetch_one env args total_files index f w) in
  fst (fetch_one env args total_files index f w) = Ok tt
  /\ download_loop env args total_files index (f :: rest) w
     = download_loop env args total_files (S index) rest w'
  /\ (forall e, n <> 0 ->
        fst (download env args total_files index f n w1) = Raise e ->
        last (trace w') = Some (EvLog ERROR (MsgDownloadFailed f (exn_str e)))
        /\ file_at w'
             (os_locate env (download_file_path (download_dir args) f))
           = None).
Proof.
  intros Hsize Hfits Hrm w1 w'.
  pose proof (fetch_one_ok total_files index f w n Hsize Hfits Hrm) as Hok.
  split; [exact Hok|]. split.
  - now apply download_loop_next.
  - intros e Hn Hdl. subst w1 w'.
    pose proof (fetch_one_failed total_files index f w n e Hsize Hn Hfits Hdl)
      as Hrun.
    destruct (cleanup_completes f e
                (snd (download env args total_files index f n
                        (snd (size env f w)))) Hrm)
      as (_ & Hnone & Hlast).
    rewrite Hrun. now split.
Qed.

End Properties.

Section Run.
Context {St : Type}.
Variable env : Env St.
Variable args : Args.

(** *** The events a run can add to the trace *)

Ltac emits_script :=
  repeat emits_step; simpl; auto.

Lemma deliver_emits (fhandle : location) (f : string)
    (chunks : list (list Byte.byte)) :
  emits (script_event args) (deliver (callback env fhandle f) chunks).
Proof.
  induction chunks as [|data chunks IH]; simpl.
  - apply emits_ret.
  - apply emits_bind; [|intros; exact IH].
    unfold callback, write. emits_script.
Qed.

Lemma fetch_one_emits (total_files index : nat) (f : string) :
  emits (script_event args) (fetch_one env args total_files index f).
Proof.
  unfold fetch_one, size, filesize_mb, logger_info, download, open_wb,
    retrbinary, delete_after, cleanup, path_exists, remove, logger_error,
    delete, logger_info.
  emits_script. apply deliver_emits.
Qed.

Lemma download_loop_emits (total_files index : nat) (files : list string) :
  emits (script_event args) (download_loop env args total_files index files).
Proof.
  revert index. induction files as [|f rest IH]; intros index; simpl.
  - apply emits_ret.
  - apply emits_bind; [apply fetch_one_emits | intros; apply IH].
Qed.

Lemma transfer_phase_emits (downloaded_files : list string) :
  emits (script_event args) (transfer_phase env args downloaded_files).
Proof.
  unfold transfer_phase, transfer_body, fetch_all, no_files_handler, nlst,
    cwd, logger_info, logger_error.
  emits_script. apply download_loop_emits.
Qed.

Lemma local_scan_emits : emits (script_event args) (local_scan env args).
Proof.
  unfold local_scan, dir_exists, makedirs, listdir. emits_script.
Qed.

Lemma connect_phase_emits : emits (script_event args) (connect_phase env args).
Proof.
  unfold connect_phase, connect_body. apply emits_try.
  - apply emits_bind; [apply local_scan_emits | intros].
    unfold handshake, connect, login, prot_p, logger_info. emits_script.
  - intros. unfold logger_error. emits_script.
Qed.

Lemma ftp_download_emits : emits (script_event args) (ftp_download env args).
Proof.
  unfold ftp_download. apply emits_bind;
    [apply connect_phase_emits | intros; apply transfer_phase_emits].
Qed.

(** *** The first [try] block *)

Lemma local_scan_local : emits local_event (local_scan env args).
Proof.
  unfold local_scan, dir_exists, makedirs, listdir.
  repeat emits_step; exact I.
Qed.

Lemma local_scan_no_exit : no_exit (local_scan env args).
Proof.
  unfold local_scan, dir_exists, makedirs, listdir. repeat no_exit_step.
Qed.

Lemma handshake_emits : emits handshake_event (handshake env args).
Proof.
  unfold handshake, connect, login, prot_p, logger_info.
  repeat emits_step; exact I.
Qed.

(** A scan that succeeds: what it did, what it found. *)
Lemma local_scan_ok (w : World St) (downloaded_files : list string) :
  fst (local_scan env args w) = Ok downloaded_files ->
  let w1 := snd (local_scan env args w) in
  trace w1
    = (trace w
         ++ match fs w with
            | None => [EvMakedirs (download_dir args)]
            | Some _ => []
            end
         ++ [EvListdir (download_dir args)])%list
  /\ fs w1 = Some (contents w)
  /\ downloaded_files
     = List.filter (fun f => endswith f ".avi")
         (elements (dom (contents w) : gset string)).
Proof.
  destruct (local_scan env args w) as [r w1] eqn:E. simpl. intros ->.
  revert E.
  unfold local_scan, dir_exists, makedirs, listdir, bind, emit, ask, check,
    get_fs, set_fs, ret, raise, contents.
  destruct w as [[m|] o s t]; simpl.
  - destruct (os_listdir env (download_dir args) s) as [[e|] s1]; simpl;
      [discriminate|].
    now intros [= <- <-].
  - destruct (os_makedirs env (download_dir args) s) as [[e|] s1]; simpl;
      [discriminate|].
    destruct (os_listdir env (download_dir args) s1) as [[e|] s2]; simpl;
      [discriminate|].
    intros [= <- <-]. simpl. now rewrite <- app_assoc.
Qed.

(** The scan never changes the files of the directory. *)
Lemma local_scan_contents (w : World St) :
  contents (snd (local_scan env args w)) = contents w.
Proof.
  unfold local_scan, dir_exists, makedirs, listdir, bind, emit, ask, check,
    get_fs, set_fs, ret, raise, contents.
  destruct w as [[m|] o s t]; simpl.
  - now destruct (os_listdir env (download_dir args) s) as [[e|] s1].
  - destruct (os_makedirs env (download_dir args) s) as [[e|] s1]; simpl;
      [reflexivity|].
    now destruct (os_listdir env (download_dir args) s1) as [[e|] s2].
Qed.

Lemma handshake_fs (w : World St) : fs (snd (handshake env args w)) = fs w.
Proof.
  unfold handshake, connect, login, prot_p, logger_info, bind, emit, ask,
    check, ret, raise. simpl.
  destruct (ftp_connect env (ip args) 990 (env_state w)) as [[e|] s1]; simpl;
    [reflexivity|].
  destruct (ftp_login env (user args) (password args) s1) as [[e|] s2];
    simpl; [reflexivity|].
  now destruct (ftp_prot_p env s2) as [[e|] s3].
Qed.

Lemma connect_phase_contents (w : World St) :
  contents (snd (connect_phase env args w)) = contents w.
Proof.
  unfold connect_phase, connect_body, try_except, bind at 1.
  pose proof (local_scan_contents w) as Hs.
  destruct (local_scan env args w) as [[dl|e|c] w1]; simpl in *;
    try exact Hs.
  unfold bind.
  pose proof (handshake_fs w1) as Hh.
  destruct (handshake env args w1) as [[[]|e|c] w2]; simpl in *;
    unfold contents in *; simpl; now rewrite Hh.
Qed.

(** Nor does the connection phase change a file elsewhere. *)
Lemma connect_phase_elsewhere (w : World St) :
  elsewhere (snd (connect_phase env args w)) = elsewhere w.
Proof.
  assert (Hs : elsewhere (snd (local_scan env args w)) = elsewhere w).
  { unfold local_scan, dir_exists, makedirs, listdir, bind, emit, ask, check,
      get_fs, set_fs, ret, raise.
    destruct w as [[m|] o s t]; simpl.
    - now destruct (os_listdir env (download_dir args) s) as [[e|] s1].
    - destruct (os_makedirs env (download_dir args) s) as [[e|] s1]; simpl;
        [reflexivity|].
      now destruct (os_listdir env (download_dir args) s1) as [[e|] s2]. }
  assert (Hh : forall w1, elsewhere (snd (handshake env args w1))
                          = elsewhere w1).
  { intros w1.
    unfold handshake, connect, login, prot_p, logger_info, bind, emit, ask,
      check, ret, raise. simpl.
    destruct (ftp_connect env (ip args) 990 (env_state w1)) as [[e|] s1];
      simpl; [reflexivity|].
    destruct (ftp_login env (user args) (password args) s1) as [[e|] s2];
      simpl; [reflexivity|].
    now destruct (ftp_prot_p env s2) as [[e|] s3]. }
  unfold connect_phase, connect_body, try_except, bind at 1.
  destruct (local_scan env args w) as [[dl|e|c] w1]; simpl in *;
    try exact Hs.
  unfold bind. specialize (Hh w1).
  destruct (handshake env args w1) as [[[]|e|c] w2]; simpl in *;
    now rewrite Hh.
Qed.

(** When the body of the first [try] raises, the handler logs the error
    under the connection-failure message and the process exits with 1. *)
Lemma run_connect_failed (w : World St) (e : exn) :
  fst (connect_body env args w) = Raise e ->
  let w1 := snd (connect_body env args w) in
  run env args w
  = (1, {| fs := fs w1; elsewhere := elsewhere w1; env_state := env_state w1;
           trace := (trace w1
                       ++ [EvLog ERROR (MsgConnectionFailed (exn_str e))])%list |}).
Proof.
  intros Hb. unfold run, ftp_download, connect_phase, bind at 1, try_except.
  destruct (connect_body env args w) as [r w1]. simpl in *. subst r.
  reflexivity.
Qed.

(** ** C7: a failed connection *)

(** C7.  In a run where the local scan has succeeded and the handshake
    (connecting, which performs the TLS handshake, logging in, or protecting
    the data channel) raises, the process logs the connection failure and
    exits with status 1; the trace holds nothing but the local scan, the
    handshake commands and the log: no listing, no size query, no
    transfer. *)
Theorem connection_failure_exits_before_listing (w : World St)
    (downloaded_files : list string) (e : exn) :
  trace w = [] ->
  fst (local_scan env args w) = Ok downloaded_files ->
  let w1 := snd (local_scan env args w) in
  fst (handshake env args w1) = Raise e ->
  let w2 := snd (handshake env args w1) in
  let final := snd (run env args w) in
  fst (run env args w) = 1
  /\ trace final
     = (trace w2 ++ [EvLog ERROR (MsgConnectionFailed (exn_str e))])%list
  /\ Forall handshake_event (trace final)
  /\ ~ In (EvFtp NLST) (trace final).
Proof.
  intros Ht Hscan w1 Hhs w2 final.
  assert (Hbody : connect_body env args w = (Raise e, w2)).
  { unfold connect_body. rewrite (bind_ok _ _ _ _ Hscan).
    now rewrite (bind_raise _ _ _ _ Hhs). }
  assert (Hrun := run_connect_failed w e). rewrite Hbody in Hrun.
  specialize (Hrun eq_refl). simpl in Hrun.
  assert (Hall : Forall handshake_event (trace final)).
  { unfold final. rewrite Hrun. simpl.
    destruct (local_scan_local w) as [t1 [E1 F1]].
    destruct (handshake_emits w1) as [t2 [E2 F2]].
    fold w1 in E1. fold w2 in E2. rewrite E2, E1, Ht. simpl.
    apply Forall_app. split; [apply Forall_app; split|]; auto.
    - eapply Forall_impl; [exact F1|]. now intros [].
    - now repeat constructor. }
  unfold final in *. rewrite Hrun in *. simpl in *.
  repeat split; auto.
  intros Hin. rewrite Forall_forall in Hall.
  exact (Hall _ (proj2 (list_elem_of_In _ _) Hin)).
Qed.

(** ** C10: the local scan comes first *)

(** C10.  In every run, whatever is sent to the printer is sent after the
    download directory has been listed, and after it has been created when
    it did not exist; a scan that succeeds leaves the directory in place and
    yields the local names that end with [.avi].  When creating or listing
    the directory raises, the error is logged under the connection-failure
    message, the process exits with status 1, and nothing at all has been
    sent to the printer. *)
Theorem local_scan_precedes_connection (w : World St) :
  trace w = [] ->
  let scan := local_scan env args w in
  let final := snd (run env args w) in
  (forall pre c post,
      trace final = (pre ++ EvFtp c :: post)%list ->
      In (EvListdir (download_dir args)) pre
      /\ (fs w = None -> In (EvMakedirs (download_dir args)) pre))
  /\ (forall downloaded_files,
        fst scan = Ok downloaded_files ->
        fs (snd scan) = Some (contents w)
        /\ downloaded_files
           = List.filter (fun f => endswith f ".avi")
               (elements (dom (contents w) : gset string)))
  /\ (forall e,
        fst scan = Raise e ->
        fst (run env args w) = 1
        /\ trace final
           = (trace (snd scan)
                ++ [EvLog ERROR (MsgConnectionFailed (exn_str e))])%list
        /\ Forall (fun ev => ~ is_ftp ev) (trace final)).
Proof.
  intros Ht scan final.
  assert (Hfail : forall e, fst scan = Raise e ->
        fst (run env args w) = 1
        /\ trace final
           = (trace (snd scan)
                ++ [EvLog ERROR (MsgConnectionFailed (exn_str e))])%list
        /\ Forall (fun ev => ~ is_ftp ev) (trace final)).
  { intros e He.
    assert (Hbody : connect_body env args w = (Raise e, snd scan)).
    { unfold connect_body. now rewrite (bind_raise _ _ _ _ He). }
    assert (Hrun := run_connect_failed w e). rewrite Hbody in Hrun.
    specialize (Hrun eq_refl). simpl in Hrun.
    unfold final. rewrite Hrun. simpl. repeat split.
    destruct (local_scan_local w) as [t1 [E1 F1]]. fold scan in E1.
    rewrite E1, Ht. simpl. apply Forall_app. split.
    - eapply Forall_impl; [exact F1|]. now intros [].
    - repeat constructor. now intros []. }
  split; [|split; [|exact Hfail]].
  - intros pre c post Hsplit.
    destruct (fst scan) as [dl|e|code] eqn:Hscan.
    + destruct (local_scan_ok w dl Hscan) as (Htr & _ & _).
      assert (Hdl : ftp_download env args w
        = bind (try_except
                  (bind (handshake env args) (fun _ => ret dl)) Exception
                  (fun e => bind (logger_error
                                    (MsgConnectionFailed (exn_str e)))
                              (fun _ => sys_exit 1)))
               (transfer_phase env args) (snd scan)).
      { unfold ftp_download, connect_phase, connect_body, bind at 1 4,
          try_except at 1 2, bind at 1 3.
        fold scan. destruct scan as [r w1]. simpl in Hscan. subst r.
        reflexivity. }
      assert (Hext : exists t, trace final = (trace (snd scan) ++ t)%list).
      { unfold final, run. rewrite Hdl.
        assert (Hem : emits (script_event args)
          (bind (try_except
                  (bind (handshake env args) (fun _ => ret dl)) Exception
                  (fun e => bind (logger_error
                                    (MsgConnectionFailed (exn_str e)))
                              (fun _ => sys_exit 1)))
               (transfer_phase env args))).
        { apply emits_bind; [|intros; apply transfer_phase_emits].
          unfold handshake, connect, login, prot_p, logger_info,
            logger_error.
          repeat emits_step; simpl; auto. }
        destruct (Hem (snd scan)) as [t [E _]].
        exists t. rewrite <- E.
        now destruct (bind _ _ (snd scan)). }
      destruct Hext as [t Hext]. fold scan in Htr.
      rewrite Hext, Htr, Ht in Hsplit. simpl in Hsplit.
      destruct (fs w) as [m|]; simpl in Hsplit.
      * destruct pre as [|ev pre]; simpl in Hsplit; [discriminate|].
        injection Hsplit as <- _. split; [now left | discriminate].
      * destruct pre as [|ev pre]; simpl in Hsplit; [discriminate|].
        injection Hsplit as <- Hsplit.
        destruct pre as [|ev pre]; simpl in Hsplit; [discriminate|].
        injection Hsplit as <- _. split; [right; now left | intros _; now left].
    + destruct (Hfail e eq_refl) as (_ & _ & Hall).
      rewrite Hsplit, Forall_app, Forall_cons in Hall.
      destruct Hall as (_ & Hc & _). destruct Hc. exact I.
    + now destruct (local_scan_no_exit w code).
  - intros dl Hscan. now destruct (local_scan_ok w dl Hscan) as (_ & ? & ?).
Qed.


(** *** The second [try] block *)

Lemma nlst_world (w : World St) :
  fs (snd (nlst env w)) = fs w
  /\ trace (snd (nlst env w)) = (trace w ++ [EvFtp NLST])%list.
Proof.
  unfold nlst, bind, emit, ask. simpl.
  now destruct (ftp_nlst env (env_state w)) as [[e|names] s'].
Qed.

Lemma nlst_elsewhere (w : World St) :
  elsewhere (snd (nlst env w)) = elsewhere w.
Proof.
  unfold nlst, bind, emit, ask. simpl.
  now destruct (ftp_nlst env (env_state w)) as [[e|names] s'].
Qed.

Lemma connect_phase_handshake_only :
  emits handshake_event (connect_phase env args).
Proof.
  unfold connect_phase, connect_body. apply emits_try.
  - apply emits_bind; [|intros; apply emits_bind;
                         [apply handshake_emits | intros; apply emits_ret]].
    eapply emits_weaken; [|apply local_scan_local]. now intros [].
  - intros. unfold logger_error. repeat emits_step. exact I.
Qed.

(** A run whose connection phase succeeded is the transfer phase run on the
    world the connection phase left. *)
Lemma run_connected (w : World St) (downloaded_files : list string) :
  fst (connect_phase env args w) = Ok downloaded_files ->
  run env args w
  = (let (r, w') := transfer_phase env args downloaded_files
                      (snd (connect_phase env args w)) in
     (exit_status r, w')).
Proof.
  intros Hc. unfold run, ftp_download. now rewrite (bind_ok _ _ _ _ Hc).
Qed.

(** ** C8: the timelapse folder is missing *)

(** C8.  In a run that has connected, when the listing of the root does not
    contain the configured folder name, the process logs that and exits
    with status 1; the files of the download directory, and the files
    elsewhere, are those of the start of the run, and no local file was
    opened, written or removed. *)
Theorem missing_folder_exits (w : World St)
    (downloaded_files root : list string) :
  trace w = [] ->
  fst (connect_phase env args w) = Ok downloaded_files ->
  let w1 := snd (connect_phase env args w) in
  fst (nlst env w1) = Ok root ->
  ~ In (ftp_timelapse_folder args) root ->
  let final := snd (run env args w) in
  fst (run env args w) = 1
  /\ contents final = contents w
  /\ elsewhere final = elsewhere w
  /\ trace final
     = (trace w1 ++ [EvFtp NLST;
                     EvLog INFO (MsgFolderNotFound
                                   (ftp_timelapse_folder args))])%list
  /\ Forall (fun ev => ~ touches_file ev) (trace final).
Proof.
  intros Ht Hc w1 Hroot Hnot final.
  assert (Hin : py_in (ftp_timelapse_folder args) root = false).
  { apply not_true_is_false. now rewrite py_in_spec. }
  destruct (nlst_world w1) as [Hfs Htr].
  assert (Hrun : run env args w
    = (1, {| fs := fs (snd (nlst env w1)); elsewhere := elsewhere (snd (nlst env w1));
             env_state := env_state (snd (nlst env w1));
             trace := (trace (snd (nlst env w1))
                         ++ [EvLog INFO (MsgFolderNotFound
                                   (ftp_timelapse_folder args))])%list |})).
  { rewrite (run_connected w downloaded_files Hc). fold w1.
    unfold transfer_phase, try_except, transfer_body.
    rewrite (bind_ok _ _ _ _ Hroot), Hin. reflexivity. }
  unfold final. rewrite Hrun. simpl.
  assert (Htrace : (trace (snd (nlst env w1))
              ++ [EvLog INFO (MsgFolderNotFound (ftp_timelapse_folder args))])%list
          = (trace w1 ++ [EvFtp NLST;
                     EvLog INFO (MsgFolderNotFound
                                   (ftp_timelapse_folder args))])%list).
  { now rewrite Htr, <- app_assoc. }
  split; [reflexivity|]. split; [|split; [|split; [exact Htrace|]]].
  - unfold contents. simpl. rewrite Hfs.
    apply (connect_phase_contents w).
  - rewrite nlst_elsewhere. apply (connect_phase_elsewhere w).
  - rewrite Htrace.
    destruct (connect_phase_handshake_only w) as [t [E F]].
    fold w1 in E. rewrite E, Ht. simpl.
    apply Forall_app. split.
    + eapply Forall_impl; [exact F|]. now intros [| | | | | |[]|].
    + repeat constructor; now intros [].
Qed.

(** ** C9: the listing of the timelapse folder fails *)

(** C9.  In a run that has connected, found the folder and changed into it,
    when the listing of the folder raises [e]: if [e] is a permission error
    whose text is exactly [550 No files found], this is logged and the
    process ends with status 0; otherwise the error is logged as a program
    failure and the process exits with status 1. *)
Theorem folder_listing_error (w : World St)
    (downloaded_files root : list string) (e : exn) :
  fst (connect_phase env args w) = Ok downloaded_files ->
  let w1 := snd (connect_phase env args w) in
  fst (nlst env w1) = Ok root ->
  In (ftp_timelapse_folder args) root ->
  let w2 := snd (nlst env w1) in
  fst (cwd env (ftp_timelapse_folder args) w2) = Ok tt ->
  let w3 := snd (cwd env (ftp_timelapse_folder args) w2) in
  let w4 := snd (logger_info MsgLooking w3) in
  fst (nlst env w4) = Raise e ->
  let final := snd (run env args w) in
  (is_no_files e = true ->
     fst (run env args w) = 0
     /\ last (trace final) = Some (EvLog ERROR MsgNoFilesInDirectory))
  /\ (is_no_files e = false ->
       fst (run env args w) = 1
       /\ last (trace final)
          = Some (EvLog ERROR (MsgProgramFailed (exn_str e)))).
Proof.
  intros Hc w1 Hroot Hin w2 Hcwd w3 w4 Hlist final.
  apply py_in_spec in Hin.
  assert (Hbody : fetch_all env args downloaded_files w3
                  = (Raise e, snd (nlst env w4))).
  { unfold fetch_all.
    rewrite (bind_ok (logger_info MsgLooking) _ w3 tt eq_refl). fold w4.
    now rewrite (bind_raise _ _ _ _ Hlist). }
  assert (Hphase : transfer_body env args downloaded_files w1
    = try_except (fetch_all env args downloaded_files) is_error_perm
        (no_files_handler) w3).
  { unfold transfer_body. rewrite (bind_ok _ _ _ _ Hroot), Hin. fold w2.
    now rewrite (bind_ok _ _ _ _ Hcwd). }
  set (w5 := snd (nlst env w4)) in *.
  assert (Hrun : run env args w
    = if is_no_files e
      then (0, {| fs := fs w5; elsewhere := elsewhere w5; env_state := env_state w5;
                  trace := (trace w5
                              ++ [EvLog ERROR MsgNoFilesInDirectory])%list |})
      else (1, {| fs := fs w5; elsewhere := elsewhere w5; env_state := env_state w5;
                  trace := (trace w5
                              ++ [EvLog ERROR
                                    (MsgProgramFailed (exn_str e))])%list |})).
  { rewrite (run_connected w downloaded_files Hc). fold w1.
    unfold transfer_phase, try_except at 1. rewrite Hphase.
    unfold try_except. rewrite Hbody.
    unfold is_no_files, no_files_handler.
    destruct (is_error_perm e); simpl; [|reflexivity].
    now destruct (String.eqb (exn_str e) "550 No files found"). }
  unfold final. rewrite Hrun.
  split; intros ->; simpl; (split; [reflexivity | apply last_snoc]).
Qed.

End Run.

(** * Concrete runs *)

(** The scenario of the specification: [a.avi] (1000 bytes), [b.avi] (size 0)
    and [c.txt] on the printer, an empty download directory, no deletion. *)
Example spec_scenario :
  fst (run (Sim.printer Sim.NoFault) (Sim.cli 990 false) (Sim.start (Some ∅)))
    = 0
  /\ length <$>
       contents (snd (run (Sim.printer Sim.NoFault) (Sim.cli 990 false)
                        (Sim.start (Some ∅)))) !! "a.avi"
     = Some 1000%nat
  /\ contents (snd (run (Sim.printer Sim.NoFault) (Sim.cli 990 false)
                      (Sim.start (Some ∅)))) !! "b.avi" = None
  /\ contents (snd (run (Sim.printer Sim.NoFault) (Sim.cli 990 false)
                      (Sim.start (Some ∅)))) !! "c.txt" = None.
Proof. vm_compute. repeat split. Qed.

Example download_set_example :
  download_set (List.filter (fun f => endswith f ".avi") ["a.avi"; "notes.txt"])
    ["a.avi"; "b.avi"; "c.txt"; "d.avi"]
  = ["b.avi"; "d.avi"].
Proof. reflexivity. Qed.

(** ** C3: the port of the control connection *)

(** C3.  Run with [--port 2121]: the log announces port 2121, and the one
    control connection of the run is opened to port 990, the literal of
    line 90; the value of [--port] is not used to connect. *)
Theorem port_flag_ignored :
  port (Sim.cli 2121 false) = 2121
  /\ nth_error
       (trace (snd (run (Sim.printer Sim.NoFault) (Sim.cli 2121 false)
                      (Sim.start (Some ∅))))) 1
     = Some (EvLog INFO (MsgConnecting "bblp" (Some "192.168.1.20") 2121))
  /\ connections
       (trace (snd (run (Sim.printer Sim.NoFault) (Sim.cli 2121 false)
                      (Sim.start (Some ∅)))))
     = [(Some "192.168.1.20", 990)].
Proof. vm_compute. repeat split. Qed.

(** ** C2: a failing size query *)

(** C2, as stated, fails.  The size query for [a.avi], a file of the download
    set, is refused: the iteration raises instead of ending normally, the
    process exits with status 1, and [b.avi], the next file, is never
    looked at.  So it does not hold that an iteration whose size query raises
    ends normally. *)
Lemma sizing_failure_aborts_run :
  In "a.avi" (download_set [] ["a.avi"; "b.avi"; "c.txt"])
  /\ fst (size (Sim.printer Sim.SizeRefused) "a.avi" (Sim.start (Some ∅)))
     = Raise Sim.size_refused
  /\ fst (fetch_one (Sim.printer Sim.SizeRefused) (Sim.cli 990 false) 2 1
            "a.avi" (Sim.start (Some ∅)))
     = Raise Sim.size_refused
  /\ run (Sim.printer Sim.SizeRefused) (Sim.cli 990 false) (Sim.start (Some ∅))
     = (1, {| fs := Some ∅;
              elsewhere := ∅;
              env_state := true;
              trace :=
                [EvListdir "/opt/bambu/timelapse";
                 EvLog INFO (MsgConnecting "bblp" (Some "192.168.1.20") 990);
                 EvFtp (CONNECT (Some "192.168.1.20") 990);
                 EvFtp (LOGIN "bblp" (Some "12345678"));
                 EvFtp PROT_P;
                 EvLog INFO MsgConnected;
                 EvFtp NLST;
                 EvFtp (CWD "timelapse");
                 EvLog INFO MsgLooking;
                 EvFtp NLST;
                 EvLog INFO (MsgFound 2);
                 EvFtp (SIZE "a.avi");
                 EvLog ERROR
                   (MsgProgramFailed "550 Could not get file size.")] |})
  /\ ~ (forall (St : Type) (env : Env St) (args : Args)
               (total_files index : nat) (f : string) (w : World St) (e : exn),
           fst (size env f w) = Raise e ->
           fst (fetch_one env args total_files index f w) = Ok tt).
Proof.
  split; [now left|].
  split; [reflexivity|].
  split; [reflexivity|].
  split; [reflexivity|].
  intros H.
  specialize (H bool (Sim.printer Sim.SizeRefused) (Sim.cli 990 false)
                2%nat 1%nat "a.avi" (Sim.start (Some ∅)) Sim.size_refused
                eq_refl).
  discriminate H.
Qed.

(** ** C5: a partial file that cannot be removed *)

(** C5, as stated, fails.  The transfer of [a.avi], a file of the download
    set, breaks after the first chunk, and [os.remove] refuses to remove the
    partial file: the exception leaves the handler of lines 141-145, the
    600 bytes written so far stay in the download directory under the name
    [a.avi], the process exits with status 1, and [b.avi] is never looked
    at.  So it does not hold that no file named [f] remains whenever the
    streaming of [f] fails. *)
Lemma failed_removal_keeps_partial_file :
  In "a.avi" (download_set [] ["a.avi"; "b.avi"; "c.txt"])
  /\ fst (download (Sim.printer Sim.RemoveDenied) (Sim.cli 990 false) 2 1
            "a.avi" 1000
            (snd (size (Sim.printer Sim.RemoveDenied) "a.avi"
                    (Sim.start (Some ∅)))))
     = Raise Sim.transfer_broken
  /\ fst (fetch_one (Sim.printer Sim.RemoveDenied) (Sim.cli 990 false) 2 1
            "a.avi" (Sim.start (Some ∅)))
     = Raise Sim.remove_denied
  /\ fst (run (Sim.printer Sim.RemoveDenied) (Sim.cli 990 false)
            (Sim.start (Some ∅))) = 1
  /\ contents (snd (run (Sim.printer Sim.RemoveDenied) (Sim.cli 990 false)
                      (Sim.start (Some ∅)))) !! "a.avi"
     = Some (Sim.chunk 600)
  /\ trace (snd (run (Sim.printer Sim.RemoveDenied) (Sim.cli 990 false)
                   (Sim.start (Some ∅))))
     = [EvListdir "/opt/bambu/timelapse";
        EvLog INFO (MsgConnecting "bblp" (Some "192.168.1.20") 990);
        EvFtp (CONNECT (Some "192.168.1.20") 990);
        EvFtp (LOGIN "bblp" (Some "12345678"));
        EvFtp PROT_P;
        EvLog INFO MsgConnected;
        EvFtp NLST;
        EvFtp (CWD "timelapse");
        EvLog INFO MsgLooking;
        EvFtp NLST;
        EvLog INFO (MsgFound 2);
        EvFtp (SIZE "a.avi");
        EvLog INFO (MsgStarting 1 2 "a.avi" 1000);
        EvOpen "/opt/bambu/timelapse" "a.avi";
        EvFtp (RETR "a.avi");
        EvWrite "a.avi" (Sim.chunk 600);
        EvProgress 600;
        EvRemove "/opt/bambu/timelapse" "a.avi";
        EvLog ERROR
          (MsgProgramFailed
             "[Errno 13] Permission denied: '/opt/bambu/timelapse/a.avi'")]
  /\ ~ (forall (St : Type) (env : Env St) (args : Args)
               (total_files index : nat) (f : string) (w : World St) (n : Z)
               (e : exn),
           fst (size env f w) = Ok (Some n) ->
           n <> 0 ->
           fst (download env args total_files index f n (snd (size env f w)))
             = Raise e ->
           file_at (snd (fetch_one env args total_files index f w))
             (os_locate env (download_file_path (download_dir args) f))
           = None).
Proof.
  split; [now left|].
  split; [vm_compute; reflexivity|].
  split; [vm_compute; reflexivity|].
  split; [vm_compute; reflexivity|].
  split; [vm_compute; reflexivity|].
  split; [vm_compute; reflexivity|].
  intros H.
  specialize (H bool (Sim.printer Sim.RemoveDenied) (Sim.cli 990 false)
                2%nat 1%nat "a.avi" (Sim.start (Some ∅)) 1000
                Sim.transfer_broken eq_refl ltac:(lia)
                ltac:(vm_compute; reflexivity)).
  vm_compute in H. discriminate H.
Qed.

(** ** Witnesses *)

Lemma streaming_failure_non_fatal_witness :
  fst (size (Sim.printer Sim.TransferBroken) "a.avi" (Sim.start (Some ∅)))
    = Ok (Some 1000)
  /\ float_overflows 1000 = false
  /\ (forall s,
        fst (os_remove (Sim.printer Sim.TransferBroken)
               (download_dir (Sim.cli 990 false)) "a.avi" s) = None)
  /\ fst (fetch_one (Sim.printer Sim.TransferBroken) (Sim.cli 990 false) 2 1
            "a.avi" (Sim.start (Some ∅))) = Ok tt.
Proof.
  assert (H : fst (size (Sim.printer Sim.TransferBroken) "a.avi"
                     (Sim.start (Some ∅))) = Ok (Some 1000)) by reflexivity.
  assert (Hfits : float_overflows 1000 = false) by (vm_compute; reflexivity).
  assert (Hrm : forall s,
             fst (os_remove (Sim.printer Sim.TransferBroken)
                    (download_dir (Sim.cli 990 false)) "a.avi" s) = None)
    by (intros s; reflexivity).
  split; [exact H|]. split; [exact Hfits|]. split; [exact Hrm|].
  pose proof (streaming_failure_non_fatal (Sim.printer Sim.TransferBroken)
                (Sim.cli 990 false) 2 1 "a.avi" ["b.avi"]
                (Sim.start (Some ∅)) 1000 H Hfits Hrm) as T.
  cbv zeta in T. exact (proj1 T).
Defined.

Lemma zero_size_skipped_witness :
  fst (size (Sim.printer Sim.NoFault) "b.avi" (Sim.start (Some ∅)))
    = Ok (Some 0)
  /\ fs (snd (fetch_one (Sim.printer Sim.NoFault) (Sim.cli 990 false) 2 2
               "b.avi" (Sim.start (Some ∅)))) = Some ∅.
Proof.
  assert (H : fst (size (Sim.printer Sim.NoFault) "b.avi"
                     (Sim.start (Some ∅))) = Ok (Some 0)) by reflexivity.
  split; [exact H|].
  pose proof (zero_size_skipped (Sim.printer Sim.NoFault) (Sim.cli 990 false)
                2 2 "b.avi" [] (Sim.start (Some ∅)) H) as T.
  cbv zeta in T. exact (proj1 (proj2 T)).
Defined.

Lemma partial_file_removed_witness :
  (fst (download (Sim.printer Sim.TransferBroken) (Sim.cli 990 false) 2 1
          "a.avi" 1000
          (snd (size (Sim.printer Sim.TransferBroken) "a.avi"
                  (Sim.start (Some ∅)))))
     = Raise Sim.transfer_broken
   /\ fst (os_remove (Sim.printer Sim.TransferBroken)
             (download_dir (Sim.cli 990 false)) "a.avi"
             (env_state
                (snd (download (Sim.printer Sim.TransferBroken)
                        (Sim.cli 990 false) 2 1 "a.avi" 1000
                        (snd (size (Sim.printer Sim.TransferBroken) "a.avi"
                                (Sim.start (Some ∅))))))))
      = None
   /\ file_at (snd (fetch_one (Sim.printer Sim.TransferBroken)
                      (Sim.cli 990 false) 2 1 "a.avi" (Sim.start (Some ∅))))
        (os_locate (Sim.printer Sim.TransferBroken)
           (download_file_path (download_dir (Sim.cli 990 false)) "a.avi"))
      = None)
  /\ (fst (os_remove (Sim.printer Sim.RemoveDenied)
             (download_dir (Sim.cli 990 false)) "a.avi"
             (env_state
                (snd (download (Sim.printer Sim.RemoveDenied)
                        (Sim.cli 990 false) 2 1 "a.avi" 1000
                        (snd (size (Sim.printer Sim.RemoveDenied) "a.avi"
                                (Sim.start (Some ∅))))))))
      = Some Sim.remove_denied
      /\ fst (fetch_one (Sim.printer Sim.RemoveDenied) (Sim.cli 990 false)
                2 1 "a.avi" (Sim.start (Some ∅)))
         = Raise Sim.remove_denied).
Proof.
  assert (Hn : 1000 <> 0) by lia.
  assert (Hfits : float_overflows 1000 = false) by (vm_compute; reflexivity).
  split.
  - assert (Hs : fst (size (Sim.printer Sim.TransferBroken) "a.avi"
                        (Sim.start (Some ∅))) = Ok (Some 1000))
      by reflexivity.
    assert (Hd : fst (download (Sim.printer Sim.TransferBroken)
                        (Sim.cli 990 false) 2 1 "a.avi" 1000
                        (snd (size (Sim.printer Sim.TransferBroken) "a.avi"
                                (Sim.start (Some ∅)))))
                 = Raise Sim.transfer_broken) by (vm_compute; reflexivity).
    assert (Hr : fst (os_remove (Sim.printer Sim.TransferBroken)
              (download_dir (Sim.cli 990 false)) "a.avi"
              (env_state
                 (snd (download (Sim.printer Sim.TransferBroken)
                         (Sim.cli 990 false) 2 1 "a.avi" 1000
                         (snd (size (Sim.printer Sim.TransferBroken) "a.avi"
                                 (Sim.start (Some ∅))))))))
       = None) by reflexivity.
    split; [exact Hd|]. split; [exact Hr|].
    pose proof (partial_file_removed (Sim.printer Sim.TransferBroken)
                  (Sim.cli 990 false) 2 1 "a.avi" ["b.avi"]
                  (Sim.start (Some ∅)) 1000 Sim.transfer_broken
                  Hs Hn Hfits Hd) as T.
    cbv zeta in T. exact (proj1 (proj2 (proj1 T (or_intror Hr)))).
  - assert (Hs : fst (size (Sim.printer Sim.RemoveDenied) "a.avi"
                        (Sim.start (Some ∅))) = Ok (Some 1000))
      by reflexivity.
    assert (Hd : fst (download (Sim.printer Sim.RemoveDenied)
                        (Sim.cli 990 false) 2 1 "a.avi" 1000
                        (snd (size (Sim.printer Sim.RemoveDenied) "a.avi"
                                (Sim.start (Some ∅)))))
                 = Raise Sim.transfer_broken) by (vm_compute; reflexivity).
    assert (Hr : fst (os_remove (Sim.printer Sim.RemoveDenied)
              (download_dir (Sim.cli 990 false)) "a.avi"
              (env_state
                 (snd (download (Sim.printer Sim.RemoveDenied)
                         (Sim.cli 990 false) 2 1 "a.avi" 1000
                         (snd (size (Sim.printer Sim.RemoveDenied) "a.avi"
                                 (Sim.start (Some ∅))))))))
       = Some Sim.remove_denied) by reflexivity.
    assert (Hf : is_Some
              (file_at
                 (snd (download (Sim.printer Sim.RemoveDenied)
                         (Sim.cli 990 false) 2 1 "a.avi" 1000
                         (snd (size (Sim.printer Sim.RemoveDenied) "a.avi"
                                 (Sim.start (Some ∅))))))
                 (os_locate (Sim.printer Sim.RemoveDenied)
                    (download_file_path (download_dir (Sim.cli 990 false))
                       "a.avi"))))
      by (vm_compute; eauto).
    split; [exact Hr|].
    pose proof (partial_file_removed (Sim.printer Sim.RemoveDenied)
                  (Sim.cli 990 false) 2 1 "a.avi" ["b.avi"]
                  (Sim.start (Some ∅)) 1000 Sim.transfer_broken
                  Hs Hn Hfits Hd) as T.
    cbv zeta in T. exact (proj1 (proj2 T Sim.remove_denied Hf Hr)).
Defined.

Lemma deletion_failure_keeps_local_copy_witness :
  fst (delete (Sim.printer Sim.DeleteDenied) "a.avi"
         (snd (download (Sim.printer Sim.DeleteDenied) (Sim.cli 990 true) 2 1
                 "a.avi" 1000
                 (snd (size (Sim.printer Sim.DeleteDenied) "a.avi"
                         (Sim.start (Some ∅)))))))
    = Raise Sim.delete_denied
  /\ float_overflows 1000 = false
  /\ is_Some (file_at (snd (fetch_one (Sim.printer Sim.DeleteDenied)
                              (Sim.cli 990 true) 2 1 "a.avi"
                              (Sim.start (Some ∅))))
                (os_locate (Sim.printer Sim.DeleteDenied)
                   (download_file_path (download_dir (Sim.cli 990 true))
                      "a.avi"))).
Proof.
  assert (Hf : delete_files_from_sd_card_after_download (Sim.cli 990 true)
               = true) by reflexivity.
  assert (Hs : fst (size (Sim.printer Sim.DeleteDenied) "a.avi"
                      (Sim.start (Some ∅))) = Ok (Some 1000)) by reflexivity.
  assert (Hn : 1000 <> 0) by lia.
  assert (Hfits : float_overflows 1000 = false) by (vm_compute; reflexivity).
  assert (Hd : fst (download (Sim.printer Sim.DeleteDenied) (Sim.cli 990 true)
                      2 1 "a.avi" 1000
                      (snd (size (Sim.printer Sim.DeleteDenied) "a.avi"
                              (Sim.start (Some ∅))))) = Ok tt)
    by (vm_compute; reflexivity).
  assert (He : fst (delete (Sim.printer Sim.DeleteDenied) "a.avi"
         (snd (download (Sim.printer Sim.DeleteDenied) (Sim.cli 990 true) 2 1
                 "a.avi" 1000
                 (snd (size (Sim.printer Sim.DeleteDenied) "a.avi"
                         (Sim.start (Some ∅)))))))
    = Raise Sim.delete_denied) by (vm_compute; reflexivity).
  split; [exact He|]. split; [exact Hfits|].
  pose proof (deletion_failure_keeps_local_copy (Sim.printer Sim.DeleteDenied)
                (Sim.cli 990 true) 2 1 "a.avi" ["b.avi"]
                (Sim.start (Some ∅)) 1000 Sim.delete_denied Hf Hs Hn Hfits
                Hd He)
    as T.
  cbv zeta in T. exact (proj1 (proj2 (proj2 (proj2 T)))).
Defined.

Lemma connection_failure_exits_before_listing_witness :
  fst (handshake (Sim.printer Sim.LoginRejected) (Sim.cli 990 false)
         (snd (local_scan (Sim.printer Sim.LoginRejected) (Sim.cli 990 false)
                 (Sim.start None))))
    = Raise Sim.login_rejected
  /\ fst (run (Sim.printer Sim.LoginRejected) (Sim.cli 990 false)
            (Sim.start None)) = 1.
Proof.
  assert (Ht : trace (Sim.start None) = []) by reflexivity.
  assert (Hs : fst (local_scan (Sim.printer Sim.LoginRejected)
                      (Sim.cli 990 false) (Sim.start None)) = Ok [])
    by (vm_compute; reflexivity).
  assert (Hh : fst (handshake (Sim.printer Sim.LoginRejected)
                      (Sim.cli 990 false)
                      (snd (local_scan (Sim.printer Sim.LoginRejected)
                              (Sim.cli 990 false) (Sim.start None))))
               = Raise Sim.login_rejected) by (vm_compute; reflexivity).
  split; [exact Hh|].
  pose proof (connection_failure_exits_before_listing
                (Sim.printer Sim.LoginRejected) (Sim.cli 990 false)
                (Sim.start None) [] Sim.login_rejected Ht Hs Hh) as T.
  cbv zeta in T. exact (proj1 T).
Defined.

Lemma missing_folder_exits_witness :
  fst (nlst (Sim.printer Sim.FolderMissing)
         (snd (connect_phase (Sim.printer Sim.FolderMissing)
                 (Sim.cli 990 false) (Sim.start None))))
    = Ok ["cache"; "model"]
  /\ fst (run (Sim.printer Sim.FolderMissing) (Sim.cli 990 false)
            (Sim.start None)) = 1.
Proof.
  assert (Ht : trace (Sim.start None) = []) by reflexivity.
  assert (Hc : fst (connect_phase (Sim.printer Sim.FolderMissing)
                      (Sim.cli 990 false) (Sim.start None)) = Ok [])
    by (vm_compute; reflexivity).
  assert (Hr : fst (nlst (Sim.printer Sim.FolderMissing)
                      (snd (connect_phase (Sim.printer Sim.FolderMissing)
                              (Sim.cli 990 false) (Sim.start None))))
               = Ok ["cache"; "model"]) by (vm_compute; reflexivity).
  assert (Hn : ~ In (ftp_timelapse_folder (Sim.cli 990 false))
                    ["cache"; "model"]).
  { simpl. intros [H|[H|[]]]; discriminate H. }
  split; [exact Hr|].
  pose proof (missing_folder_exits (Sim.printer Sim.FolderMissing)
                (Sim.cli 990 false) (Sim.start None) [] ["cache"; "model"]
                Ht Hc Hr Hn) as T.
  cbv zeta in T. exact (proj1 T).
Defined.

Lemma folder_listing_error_witness :
  is_no_files Sim.no_files = true
  /\ fst (run (Sim.printer Sim.FolderEmpty) (Sim.cli 990 false)
            (Sim.start None)) = 0.
Proof.
  assert (Hc : fst (connect_phase (Sim.printer Sim.FolderEmpty)
                      (Sim.cli 990 false) (Sim.start None)) = Ok [])
    by (vm_compute; reflexivity).
  assert (Hr : fst (nlst (Sim.printer Sim.FolderEmpty)
                      (snd (connect_phase (Sim.printer Sim.FolderEmpty)
                              (Sim.cli 990 false) (Sim.start None))))
               = Ok ["timelapse"; "cache"]) by (vm_compute; reflexivity).
  assert (Hi : In (ftp_timelapse_folder (Sim.cli 990 false))
                  ["timelapse"; "cache"]) by (simpl; auto).
  assert (Hw : fst (cwd (Sim.printer Sim.FolderEmpty)
                      (ftp_timelapse_folder (Sim.cli 990 false))
                      (snd (nlst (Sim.printer Sim.FolderEmpty)
                              (snd (connect_phase
                                      (Sim.printer Sim.FolderEmpty)
                                      (Sim.cli 990 false) (Sim.start None))))))
               = Ok tt) by (vm_compute; reflexivity).
  assert (Hl : fst (nlst (Sim.printer Sim.FolderEmpty)
                      (snd (logger_info MsgLooking
                              (snd (cwd (Sim.printer Sim.FolderEmpty)
                                      (ftp_timelapse_folder
                                         (Sim.cli 990 false))
                                      (snd (nlst (Sim.printer Sim.FolderEmpty)
                                              (snd (connect_phase
                                                      (Sim.printer
                                                         Sim.FolderEmpty)
                                                      (Sim.cli 990 false)
                                                      (Sim.start None))))))))))
               = Raise Sim.no_files) by (vm_compute; reflexivity).
  assert (Hy : is_no_files Sim.no_files = true) by reflexivity.
  split; [exact Hy|].
  pose proof (folder_listing_error (Sim.printer Sim.FolderEmpty)
                (Sim.cli 990 false) (Sim.start None) []
                ["timelapse"; "cache"] Sim.no_files Hc Hr Hi Hw Hl) as T.
  cbv zeta in T. exact (proj1 (proj1 T Hy)).
Defined.

Lemma local_scan_precedes_connection_witness :
  fst (local_scan (Sim.printer Sim.MakedirsDenied) (Sim.cli 990 false)
         (Sim.start None))
    = Raise Sim.makedirs_denied
  /\ fst (run (Sim.printer Sim.MakedirsDenied) (Sim.cli 990 false)
            (Sim.start None)) = 1.
Proof.
  assert (Ht : trace (Sim.start None) = []) by reflexivity.
  assert (Hs : fst (local_scan (Sim.printer Sim.MakedirsDenied)
                      (Sim.cli 990 false) (Sim.start None))
               = Raise Sim.makedirs_denied) by (vm_compute; reflexivity).
  split; [exact Hs|].
  pose proof (local_scan_precedes_connection (Sim.printer Sim.MakedirsDenied)
                (Sim.cli 990 false) (Sim.start None) Ht) as T.
  cbv zeta in T.
  exact (proj1 (proj2 (proj2 T) Sim.makedirs_denied Hs)).
Defined.

(** * Further properties *)

(** ** Which local files a computation can change *)

Section Frames.
Context {St : Type}.

Lemma touches_nothing {A} (K : location -> Prop) (m : M St A) :
  (forall w, fs (snd (m w)) = fs w /\ elsewhere (snd (m w)) = elsewhere w) ->
  touches_only K m.
Proof.
  intros H w l _. destruct (H w) as [Hf He].
  destruct l; simpl; unfold contents; now rewrite ?Hf, ?He.
Qed.

Lemma touches_ret {A} K (a : A) : touches_only K (ret a : M St A).
Proof. now apply touches_nothing. Qed.

Lemma touches_raise {A} K e : touches_only K (raise e : M St A).
Proof. now apply touches_nothing. Qed.

Lemma touches_sys_exit {A} K c : touches_only K (sys_exit c : M St A).
Proof. now apply touches_nothing. Qed.

Lemma touches_get_fs K : touches_only K (get_fs : M St _).
Proof. now apply touches_nothing. Qed.

Lemma touches_get_file K l : touches_only K (get_file l : M St _).
Proof. now apply touches_nothing. Qed.

Lemma touches_set_file (K : location -> Prop) l c :
  K l -> touches_only K (set_file l c : M St _).
Proof.
  intros Hl w l' Hl'. unfold set_file. simpl.
  apply file_at_update_ne. intros ->. now apply Hl'.
Qed.

Lemma touches_emit K ev : touches_only K (emit ev : M St unit).
Proof. now apply touches_nothing. Qed.

Lemma touches_ask {A} K (f : St -> A * St) : touches_only K (ask f).
Proof.
  apply touches_nothing. intros w. unfold ask.
  now destruct (f (env_state w)).
Qed.

Lemma touches_check K r : touches_only K (check r : M St unit).
Proof. destruct r; [apply touches_raise | apply touches_ret]. Qed.

Lemma touches_bind {A B} K (m : M St A) (k : A -> M St B) :
  touches_only K m -> (forall a, touches_only K (k a)) ->
  touches_only K (bind m k).
Proof.
  intros Hm Hk w g Hg. unfold bind. specialize (Hm w g Hg).
  destruct (m w) as [[a|e|c] w1]; simpl in *; try exact Hm.
  now rewrite (Hk a w1 g Hg).
Qed.

(** Sequencing, when what follows is only known for the values the first
    computation can return. *)
Lemma touches_bind_value {A B} K (P : A -> Prop) (m : M St A)
    (k : A -> M St B) :
  (forall w a, fst (m w) = Ok a -> P a) ->
  touches_only K m -> (forall a, P a -> touches_only K (k a)) ->
  touches_only K (bind m k).
Proof.
  intros HP Hm Hk w g Hg. unfold bind. specialize (Hm w g Hg).
  specialize (HP w).
  destruct (m w) as [[a|e|c] w1]; simpl in *; try exact Hm.
  now rewrite (Hk a (HP a eq_refl) w1 g Hg).
Qed.

Lemma touches_try {A} K (body : M St A) catches handler :
  touches_only K body -> (forall e, touches_only K (handler e)) ->
  touches_only K (try_except body catches handler).
Proof.
  intros Hb Hh w g Hg. unfold try_except. specialize (Hb w g Hg).
  destruct (body w) as [[a|e|c] w1]; simpl in *; try exact Hb.
  destruct (catches e); [|exact Hb].
  now rewrite (Hh e w1 g Hg).
Qed.

Lemma touches_weaken {A} (K K' : location -> Prop) (m : M St A) :
  (forall g, K g -> K' g) -> touches_only K m -> touches_only K' m.
Proof. intros HK Hm w g Hg. apply Hm. auto. Qed.

End Frames.

Ltac touches_step :=
  lazymatch goal with
  | |- touches_only _ (bind _ _) => apply touches_bind; [|intros]
  | |- touches_only _ (try_except _ _ _) => apply touches_try; [|intros]
  | |- touches_only _ (ret _) => apply touches_ret
  | |- touches_only _ (raise _) => apply touches_raise
  | |- touches_only _ (sys_exit _) => apply touches_sys_exit
  | |- touches_only _ get_fs => apply touches_get_fs
  | |- touches_only _ (get_file _) => apply touches_get_file
  | |- touches_only _ (ask _) => apply touches_ask
  | |- touches_only _ (check _) => apply touches_check
  | |- touches_only _ (emit _) => apply touches_emit
  | |- touches_only _ (match ?x with _ => _ end) => destruct x
  end.

Section FileFrames.
Context {St : Type}.
Variable env : Env St.
Variable args : Args.

Lemma open_wb_touches (K : location -> Prop) (dir f : string) :
  K (os_locate env (download_file_path dir f)) ->
  touches_only K (open_wb env dir f).
Proof.
  intros Hf. unfold open_wb.
  repeat first [ apply (touches_set_file K _ _ Hf) | touches_step ].
Qed.

Lemma write_touches (K : location -> Prop) (fhandle : location)
    (f : string) (data : list Byte.byte) :
  K fhandle -> touches_only K (write env fhandle f data).
Proof.
  intros Hf. unfold write.
  repeat first [ apply (touches_set_file K _ _ Hf) | touches_step ].
Qed.

Lemma remove_touches (K : location -> Prop) (dir f : string) :
  K (os_locate env (download_file_path dir f)) ->
  touches_only K (remove env dir f).
Proof.
  intros Hf. unfold remove.
  repeat first [ apply (touches_set_file K _ _ Hf) | touches_step ].
Qed.

Lemma deliver_touches (K : location -> Prop) (fhandle : location)
    (f : string) (chunks : list (list Byte.byte)) :
  K fhandle -> touches_only K (deliver (callback env fhandle f) chunks).
Proof.
  intros Hf. induction chunks as [|data chunks IH]; simpl.
  - apply touches_ret.
  - apply touches_bind; [|intros; exact IH].
    unfold callback. apply touches_bind; [now apply write_touches|].
    intros. apply touches_emit.
Qed.

Lemma download_touches (K : location -> Prop) (total_files index : nat)
    (f : string) (n : Z) :
  K (os_locate env (download_file_path (download_dir args) f)) ->
  touches_only K (download env args total_files index f n).
Proof.
  intros Hf. unfold download, logger_info.
  apply touches_bind; [apply touches_emit | intros _].
  apply (touches_bind_value K
           (fun fhandle =>
              fhandle
              = os_locate env (download_file_path (download_dir args) f))).
  - intros w fhandle Hopen. now apply (open_wb_ok env _ _ w).
  - now apply open_wb_touches.
  - intros fhandle ->. unfold retrbinary.
    repeat first [ apply (deliver_touches K _ f _ Hf) | touches_step ].
Qed.

Lemma fetch_one_touches (K : location -> Prop) (total_files index : nat)
    (f : string) :
  K (os_locate env (download_file_path (download_dir args) f)) ->
  touches_only K (fetch_one env args total_files index f).
Proof.
  intros Hf.
  unfold fetch_one, size, filesize_mb, delete_after,
    delete, cleanup, path_exists, logger_info, logger_error.
  repeat first
    [ apply (download_touches K _ _ f _ Hf)
    | apply (remove_touches K _ f Hf)
    | touches_step ].
Qed.

Lemma download_loop_touches (K : location -> Prop) (total_files index : nat)
    (files : list string) :
  (forall f, In f files ->
             K (os_locate env (download_file_path (download_dir args) f))) ->
  touches_only K (download_loop env args total_files index files).
Proof.
  revert index. induction files as [|f rest IH]; intros index HK; simpl.
  - apply touches_ret.
  - apply touches_bind.
    + apply fetch_one_touches. apply HK. now left.
    + intros _. apply IH. intros g Hg. apply HK. now right.
Qed.

(** X3.  The loop changes no local file other than those the paths of its
    files lead to: a location that is not the one of [download_dir/f] for a
    file [f] of the list holds, after the loop, exactly what it held before
    (the same content, or still nothing), however the loop ends. *)
Theorem download_loop_leaves_other_files (total_files index : nat)
    (files : list string) :
  touches_only (reached env args files)
    (download_loop env args total_files index files).
Proof.
  apply download_loop_touches. intros f Hf. now exists f.
Qed.





End FileFrames.

(** ** One iteration of the loop, and the loop *)

Section Iteration.
Context {St : Type}.
Variable env : Env St.
Variable args : Args.

Ltac iteration_events := repeat emits_step; simpl; auto.

Lemma deliver_iteration (total_files index : nat) (fhandle : location)
    (f : string) (chunks : list (list Byte.byte)) :
  emits (iteration_event args total_files index f)
    (deliver (callback env fhandle f) chunks).
Proof.
  induction chunks as [|data chunks IH]; simpl.
  - apply emits_ret.
  - apply emits_bind; [|intros; exact IH].
    unfold callback, write. iteration_events.
Qed.

Lemma download_iteration (total_files index : nat) (f : string) (n : Z) :
  emits (iteration_event args total_files index f)
    (download env args total_files index f n).
Proof.
  unfold download, logger_info, open_wb, retrbinary. iteration_events.
  apply deliver_iteration.
Qed.

Lemma delete_after_iteration (total_files index : nat) (f : string) :
  emits (iteration_event args total_files index f) (delete_after env args f).
Proof.
  unfold delete_after.
  destruct (delete_files_from_sd_card_after_download args) eqn:Hflag.
  - unfold delete, logger_error. iteration_events.
  - apply emits_ret.
Qed.

Lemma cleanup_iteration (total_files index : nat) (f : string) (e : exn) :
  emits (iteration_event args total_files index f)
    (cleanup env args f e).
Proof. unfold cleanup, path_exists, remove, logger_error. iteration_events. Qed.

Lemma fetch_one_iteration (total_files index : nat) (f : string) :
  emits (iteration_event args total_files index f)
    (fetch_one env args total_files index f).
Proof.
  unfold fetch_one. apply emits_bind.
  - unfold size. iteration_events.
  - intros filesize. apply emits_bind.
    + unfold filesize_mb. iteration_events.
    + intros n. destruct (n =? 0).
      * unfold logger_info. iteration_events.
      * apply emits_try.
        -- apply emits_bind; [apply download_iteration|].
           intros. apply delete_after_iteration.
        -- intros e. apply cleanup_iteration.
Qed.

(** X1.  Whatever the printer and the file system answer, the iteration for
    [f] only adds events that name [f]: its [SIZE], [RETR] and [DELE]
    commands, its local open, writes and removal, and its log records, which
    carry the iteration's own position; a [DELE] is sent only when the
    delete-after-download option is set. *)
Theorem fetch_one_names_only_its_file (total_files index : nat) (f : string) :
  emits (iteration_event args total_files index f)
    (fetch_one env args total_files index f).
Proof. apply fetch_one_iteration. Qed.

Lemma download_loop_iteration (total_files index : nat)
    (files : list string) :
  emits (fun ev => exists k f,
             nth_error files k = Some f
             /\ iteration_event args total_files (index + k) f ev)
    (download_loop env args total_files index files).
Proof.
  revert index. induction files as [|f rest IH]; intros index; simpl.
  - apply emits_ret.
  - apply emits_bind.
    + eapply emits_weaken; [|apply fetch_one_iteration].
      intros ev Hev. exists 0%nat, f. rewrite Nat.add_0_r. now split.
    + intros _. eapply emits_weaken; [|apply (IH (S index))].
      intros ev (k & g & Hk & Hev). exists (S k), g.
      rewrite Nat.add_succ_r. now split.
Qed.

(** X2.  Every event of the loop belongs to the iteration of one file of the
    list, at that file's position: the file at offset [k] is processed as
    number [index + k] of [total_files]. *)
Theorem download_loop_positions (total_files index : nat)
    (files : list string) :
  emits (fun ev => exists k f,
             nth_error files k = Some f
             /\ iteration_event args total_files (index + k) f ev)
    (download_loop env args total_files index files).
Proof. apply download_loop_iteration. Qed.

End Iteration.

(** ** Size queries, transfers and the order of the loop *)

Lemma sized_app (a b : list event) : sized (a ++ b) = (sized a ++ sized b)%list.
Proof.
  induction a as [|ev a IH]; simpl; [reflexivity|].
  destruct ev as [| | | | | |[]|]; simpl; now rewrite ?IH.
Qed.

Lemma sized_nil (t : list event) :
  Forall (fun ev => sized [ev] = []) t -> sized t = [].
Proof.
  induction 1 as [|ev t Hev _ IH]; [reflexivity|].
  change (ev :: t) with ([ev] ++ t)%list. now rewrite sized_app, Hev, IH.
Qed.

Lemma progress_app (a b : list event) :
  progress (a ++ b) = (progress a + progress b)%nat.
Proof.
  induction a as [|ev a IH]; simpl; [reflexivity|].
  destruct ev; simpl; rewrite ?IH; lia.
Qed.

Lemma progress_nil (t : list event) :
  Forall (fun ev => progress [ev] = 0%nat) t -> progress t = 0%nat.
Proof.
  induction 1 as [|ev t Hev _ IH]; [reflexivity|].
  change (ev :: t) with ([ev] ++ t)%list. now rewrite progress_app, Hev, IH.
Qed.

Section LoopFacts.
Context {St : Type}.
Variable env : Env St.
Variable args : Args.

(** X5.  When the size query for a file raises, the loop stops there with
    that exception: nothing but the [SIZE] command was added to the trace, the
    download directory is unchanged, and none of the later files is looked
    at. *)
Theorem sizing_error_ends_loop (total_files index : nat) (f : string)
    (rest : list string) (w : World St) (e : exn) :
  fst (size env f w) = Raise e ->
  download_loop env args total_files index (f :: rest) w
  = (Raise e, snd (size env f w))
  /\ trace (snd (size env f w)) = (trace w ++ [EvFtp (SIZE f)])%list
  /\ fs (snd (size env f w)) = fs w.
Proof.
  intros Hsize. destruct (size_world env f w) as [Hfs Htr].
  split; [|now split].
  simpl. unfold fetch_one.
  rewrite (bind_raise (bind (size env f) _) _ w e);
    now rewrite (bind_raise _ _ _ _ Hsize).
Qed.

(** X6.  When the size query answers no number ([FTP.size] returns [None]),
    the division of line 112 raises a [TypeError] and the loop stops there:
    no local file is created and none of the later files is looked at. *)
Theorem size_none_ends_loop (total_files index : nat) (f : string)
    (rest : list string) (w : World St) :
  fst (size env f w) = Ok None ->
  exists msg,
    download_loop env args total_files index (f :: rest) w
    = (Raise (Exn TypeError msg), snd (size env f w))
    /\ trace (snd (size env f w)) = (trace w ++ [EvFtp (SIZE f)])%list
    /\ fs (snd (size env f w)) = fs w.
Proof.
  intros Hsize. destruct (size_world env f w) as [Hfs Htr].
  eexists. split; [|now split].
  assert (Hone : fetch_one env args total_files index f w
                 = (Raise (Exn TypeError
                      "unsupported operand type(s) for /: 'NoneType' and 'int'"),
                    snd (size env f w))).
  { unfold fetch_one. now rewrite (bind_ok _ _ _ _ Hsize). }
  simpl. unfold bind at 1. rewrite Hone. reflexivity.
Qed.

(** X7.  If the printer answers every size query with a number that
    line 112 can convert, and the operating system never refuses to remove a
    file, the loop runs over all its files and ends normally, whatever else
    fails: refused local files, broken transfers and failed deletions never
    stop it. *)
Theorem loop_completes_when_sizes_answer (total_files index : nat)
    (files : list string) (w : World St) :
  (forall f s, exists n s',
      ftp_size env f s = (inr (Some n), s') /\ float_overflows n = false) ->
  (forall dir f s, fst (os_remove env dir f s) = None) ->
  fst (download_loop env args total_files index files w) = Ok tt.
Proof.
  intros Hsizes Hrm. revert index w.
  induction files as [|f rest IH]; intros index w; [reflexivity|].
  assert (Hok : fst (fetch_one env args total_files index f w) = Ok tt).
  { destruct (Hsizes f (env_state w)) as (n & s' & Hs & Hfits).
    apply (fetch_one_ok env args total_files index f w n);
      [|exact Hfits|intros s; apply Hrm].
    unfold size, bind, emit, ask. simpl. now rewrite Hs. }
  rewrite (download_loop_next env args total_files index f rest w Hok).
  apply IH.
Qed.

(** The events of an iteration after its size query: no further query. *)
Lemma after_size_no_size (total_files index : nat) (f : string)
    (filesize : option Z) :
  emits (fun ev => sized [ev] = [])
    (bind (filesize_mb filesize)
       (fun n =>
          if n =? 0 then logger_info (MsgZeroSize f)
          else try_except
                 (bind (download env args total_files index f n)
                    (fun _ => delete_after env args f))
                 Exception (cleanup env args f))).
Proof.
  assert (Hd : forall fhandle chunks,
             emits (fun ev => sized [ev] = [])
               (deliver (callback env fhandle f) chunks)).
  { intros fhandle. induction chunks as [|data chunks IH]; simpl.
    - apply emits_ret.
    - apply emits_bind; [|intros; exact IH].
      unfold callback, write. repeat emits_step; reflexivity. }
  unfold filesize_mb, download, open_wb, retrbinary, delete_after, delete,
    cleanup, path_exists, remove, logger_info, logger_error.
  repeat first [ apply Hd | emits_step ]; reflexivity.
Qed.

Lemma fetch_one_sized_once (total_files index : nat) (f : string)
    (w : World St) :
  sized (trace (snd (fetch_one env args total_files index f w)))
  = (sized (trace w) ++ [f])%list.
Proof.
  unfold fetch_one, bind at 1.
  destruct (size_world env f w) as [_ Htr].
  destruct (size env f w) as [[filesize|e|c] w1]; simpl in *;
    try (now rewrite Htr, sized_app).
  destruct (after_size_no_size total_files index f filesize w1)
    as [t [E F]].
  rewrite E, Htr, !sized_app, (sized_nil t F). simpl.
  now rewrite app_nil_r.
Qed.

(** X8.  The loop asks the size of its files one by one in the order of the
    list, each at most once: the files sized are always a prefix of the list,
    and the whole list when the loop ends normally. *)
Theorem loop_visits_files_in_order (total_files index : nat)
    (files : list string) (w : World St) :
  (exists k,
      sized (trace (snd (download_loop env args total_files index files w)))
      = (sized (trace w) ++ take k files)%list)
  /\ (fst (download_loop env args total_files index files w) = Ok tt ->
      sized (trace (snd (download_loop env args total_files index files w)))
      = (sized (trace w) ++ files)%list).
Proof.
  revert index w. induction files as [|f rest IH]; intros index w; simpl.
  - split; [exists 0%nat|intros _]; now rewrite app_nil_r.
  - unfold bind.
    pose proof (fetch_one_sized_once total_files index f w) as Hone.
    destruct (fetch_one env args total_files index f w) as [[[]|e|c] w1];
      simpl in *.
    + destruct (IH (S index) w1) as [[k Hk] Hall]. split.
      * exists (S k). rewrite Hk, Hone, <- app_assoc. reflexivity.
      * intros Hok. rewrite (Hall Hok), Hone, <- app_assoc. reflexivity.
    + split; [exists 1%nat; now rewrite Hone | discriminate].
    + split; [exists 1%nat; now rewrite Hone | discriminate].
Qed.

(** *** What a completed transfer leaves *)

Lemma callback_appends (fhandle : location) (f : string)
    (data c0 : list Byte.byte) (w : World St) :
  file_at w fhandle = Some c0 ->
  fst (callback env fhandle f data w) = Ok tt ->
  file_at (snd (callback env fhandle f data w)) fhandle
  = Some (c0 ++ data)%list
  /\ progress (trace (snd (callback env fhandle f data w)))
     = (progress (trace w) + length data)%nat.
Proof.
  unfold callback, write, bind, emit, ask, check, get_file, set_file, ret,
    raise.
  simpl. intros Hf.
  destruct (os_write env f data (env_state w)) as [[e|] s1]; simpl;
    [discriminate|].
  intros _. split.
  - destruct fhandle as [n|p]; simpl in *; unfold contents in *; simpl in *.
    + destruct (fs w) as [m|]; simpl in *.
      * rewrite lookup_partial_alter_eq. now rewrite Hf.
      * rewrite lookup_empty in Hf. discriminate.
    + rewrite lookup_partial_alter_eq. now rewrite Hf.
  - destruct fhandle; simpl; rewrite !progress_app; simpl; lia.
Qed.

Lemma deliver_appends (fhandle : location) (f : string)
    (chunks : list (list Byte.byte)) (c0 : list Byte.byte) (w : World St) :
  file_at w fhandle = Some c0 ->
  fst (deliver (callback env fhandle f) chunks w) = Ok tt ->
  file_at (snd (deliver (callback env fhandle f) chunks w)) fhandle
  = Some (c0 ++ concat chunks)%list
  /\ progress (trace (snd (deliver (callback env fhandle f) chunks w)))
     = (progress (trace w) + length (concat chunks))%nat.
Proof.
  revert c0 w. induction chunks as [|data chunks IH]; intros c0 w Hf.
  - simpl. intros _. rewrite app_nil_r. split; [exact Hf | lia].
  - simpl. unfold bind.
    pose proof (callback_appends fhandle f data c0 w Hf) as Hcb.
    destruct (callback env fhandle f data w) as [[[]|e|c] w1]; simpl in *;
      try discriminate.
    destruct (Hcb eq_refl) as [Hf1 Hp1]. intros Hok.
    destruct (IH (c0 ++ data)%list w1 Hf1 Hok) as [Hc Hp].
    rewrite Hc, Hp, Hp1, length_app, <- app_assoc. split; [reflexivity | lia].
Qed.

(** X9.  When the transfer of [f] completes, the local file at the path of
    [f] holds exactly the bytes the printer delivered for [RETR f], chunk
    after chunk in order, whatever the file held before; and the progress
    bar has been advanced by exactly that number of bytes. *)
Theorem download_stores_stream (total_files index : nat) (f : string)
    (n : Z) (w : World St) :
  fst (download env args total_files index f n w) = Ok tt ->
  let w0 := snd (open_wb env (download_dir args) f
                   (snd (logger_info (MsgStarting index total_files f n) w)))
  in
  let chunks := fst (fst (ftp_retr env f (env_state w0))) in
  file_at (snd (download env args total_files index f n w))
    (os_locate env (download_file_path (download_dir args) f))
  = Some (concat chunks)
  /\ progress (trace (snd (download env args total_files index f n w)))
     = (progress (trace w) + length (concat chunks))%nat.
Proof.
  set (w' := snd (logger_info (MsgStarting index total_files f n) w)).
  assert (E : download env args total_files index f n w
            = bind (open_wb env (download_dir args) f)
                (fun fhandle => retrbinary env f (callback env fhandle f)) w')
    by reflexivity.
  rewrite E. clear E. unfold bind at 1 2 3.
  pose proof (open_wb_ok env (download_dir args) f w') as Hopen.
  assert (Hp0 : progress (trace (snd (open_wb env (download_dir args) f w')))
                = progress (trace w)).
  { assert (Hem : emits (fun ev => progress [ev] = 0%nat)
                    (open_wb env (download_dir args) f))
      by (unfold open_wb; repeat emits_step; reflexivity).
    destruct (Hem w') as [t [Et Ft]].
    rewrite Et, progress_app, (progress_nil t Ft). unfold w'. simpl.
    rewrite progress_app. simpl. lia. }
  destruct (open_wb env (download_dir args) f w') as [[fhandle|e|c] w1];
    simpl in *; try discriminate.
  destruct (Hopen fhandle eq_refl) as (-> & Hf & _).
  unfold retrbinary, bind, emit, ask. simpl.
  destruct (ftp_retr env f (env_state w1)) as [[chunks err] s2]. simpl.
  match goal with |- context [deliver _ _ ?w0] => set (w2 := w0) end.
  assert (Hf2 : file_at w2
                  (os_locate env (download_file_path (download_dir args) f))
                = Some []).
  { unfold w2.
    destruct (os_locate env (download_file_path (download_dir args) f));
      unfold file_at, contents in *; simpl in *; now rewrite Hf. }
  pose proof (deliver_appends _ f chunks [] w2 Hf2) as Hd.
  destruct (deliver _ chunks w2) as [[[]|e|c] w3]; simpl in *;
    try discriminate.
  destruct err; simpl; [discriminate|]. intros _.
  destruct (Hd eq_refl) as [Hc Hp]. split; [exact Hc|].
  rewrite Hp. unfold w2. simpl. rewrite !progress_app, Hp0. simpl. lia.
Qed.

(** *** Remote deletions *)

Lemma download_no_dele (total_files index : nat) (f : string) (n : Z) :
  emits (fun ev => ~ is_dele ev) (download env args total_files index f n).
Proof.
  assert (Hd : forall fhandle chunks,
             emits (fun ev => ~ is_dele ev)
               (deliver (callback env fhandle f) chunks)).
  { intros fhandle. induction chunks as [|data chunks IH]; simpl.
    - apply emits_ret.
    - apply emits_bind; [|intros; exact IH].
      unfold callback, write. repeat emits_step; now intros []. }
  unfold download, open_wb, retrbinary, logger_info.
  repeat first [ apply Hd | emits_step ]; now intros [].
Qed.

(** X10.  A file whose transfer failed is never deleted from the printer:
    the iteration in which the transfer of [f] raises sends no [DELE], with
    or without the delete-after-download option. *)
Theorem failed_transfer_is_not_deleted (total_files index : nat) (f : string)
    (w : World St) (n : Z) (e : exn) :
  fst (size env f w) = Ok (Some n) ->
  n <> 0 ->
  fst (download env args total_files index f n (snd (size env f w)))
    = Raise e ->
  exists t,
    trace (snd (fetch_one env args total_files index f w))
    = (trace w ++ t)%list
    /\ Forall (fun ev => ~ is_dele ev) t.
Proof.
  intros Hsize Hn Hdl.
  destruct (size_world env f w) as [_ Hs].
  destruct (float_overflows n) eqn:Hfits.
  - assert (Hrun : fetch_one env args total_files index f w
                   = (Raise (Exn OverflowError
                        "integer division result too large for a float"),
                      snd (size env f w))).
    { unfold fetch_one. rewrite (bind_ok _ _ _ _ Hsize).
      unfold filesize_mb. now rewrite Hfits. }
    rewrite Hrun. simpl. exists [EvFtp (SIZE f)]. split; [exact Hs|].
    repeat constructor. now intros [].
  - rewrite (fetch_one_failed env args total_files index f w n e
               Hsize Hn Hfits Hdl).
    destruct (download_no_dele total_files index f n (snd (size env f w)))
      as [t [E F]].
    assert (Hc : emits (fun ev => ~ is_dele ev) (cleanup env args f e)).
    { unfold cleanup, path_exists, remove, logger_error.
      repeat emits_step; now intros []. }
    destruct (Hc (snd (download env args total_files index f n
                         (snd (size env f w))))) as [t2 [E2 F2]].
    exists ([EvFtp (SIZE f)] ++ t ++ t2)%list. split.
    + rewrite E2, E, Hs, <- !app_assoc. reflexivity.
    + apply Forall_app. split; [repeat constructor; now intros []|].
      apply Forall_app. now split.
Qed.

(** X19.  After a completed transfer of [f], whose size line 112 could
    convert, the iteration ends normally and the local files stay as the
    transfer left them.  Without the delete-after-download option nothing
    more happens.  With it, exactly one [DELE f] is sent: when the deletion
    returns nothing more is recorded, and when it raises the only further
    record is the deletion error with the text of that exception. *)
Theorem completed_transfer_then_delete (total_files index : nat)
    (f : string) (w : World St) (n : Z) :
  fst (size env f w) = Ok (Some n) ->
  n <> 0 ->
  float_overflows n = false ->
  let w2 := snd (download env args total_files index f n
                   (snd (size env f w))) in
  fst (download env args total_files index f n (snd (size env f w)))
    = Ok tt ->
  let w3 := snd (fetch_one env args total_files index f w) in
  fst (fetch_one env args total_files index f w) = Ok tt
  /\ fs w3 = fs w2
  /\ elsewhere w3 = elsewhere w2
  /\ (delete_files_from_sd_card_after_download args = false ->
      trace w3 = trace w2)
  /\ (delete_files_from_sd_card_after_download args = true ->
      trace w3
      = (trace w2
           ++ EvFtp (DELE f)
              :: match fst (ftp_delete env f (env_state w2)) with
                 | Some e => [EvLog ERROR (MsgDeleteFailed (exn_str e))]
                 | None => []
                 end)%list).
Proof.
  intros Hsize Hn Hfits w2 Hdl w3.
  assert (Hrun : fetch_one env args total_files index f w
                 = delete_after env args f w2).
  { rewrite (fetch_one_sized env args _ _ _ _ _ Hsize Hn Hfits).
    unfold try_except at 1. rewrite (bind_ok _ _ _ _ Hdl). fold w2.
    pose proof (delete_after_ok env args f w2) as Hok.
    destruct (delete_after env args f w2) as [r w']. simpl in Hok.
    now subst r. }
  unfold w3. rewrite Hrun. clear Hrun w3.
  split; [apply delete_after_ok|].
  unfold delete_after, try_except, delete, bind, emit, ask, check,
    logger_error, Exception, raise, ret.
  destruct (delete_files_from_sd_card_after_download args); simpl.
  - destruct (ftp_delete env f (env_state w2)) as [[e|] s']; simpl.
    + split; [reflexivity|]. split; [reflexivity|].
      split; [discriminate|]. intros _. now rewrite <- app_assoc.
    + split; [reflexivity|]. split; [reflexivity|].
      split; [discriminate|]. reflexivity.
  - split; [reflexivity|]. split; [reflexivity|].
    split; [reflexivity | discriminate].
Qed.

End LoopFacts.

(** ** Whole runs *)

Section RunFacts.
Context {St : Type}.
Variable env : Env St.
Variable args : Args.

Lemma run_world (w : World St) :
  snd (run env args w) = snd (ftp_download env args w).
Proof. unfold run. now destruct (ftp_download env args w). Qed.

Lemma run_status (w : World St) :
  fst (run env args w) = exit_status (fst (ftp_download env args w)).
Proof. unfold run. now destruct (ftp_download env args w). Qed.

(** *** Remote deletions need the option *)

Lemma download_loop_dele (total_files index : nat) (files : list string) :
  emits (fun ev => is_dele ev ->
                   delete_files_from_sd_card_after_download args = true)
    (download_loop env args total_files index files).
Proof.
  eapply emits_weaken; [|apply (download_loop_iteration env args)].
  intros ev (k & g & _ & Hev) Hd.
  destruct ev as [| | | | | |[]|]; simpl in *; try contradiction.
  tauto.
Qed.

Lemma ftp_download_dele :
  emits (fun ev => is_dele ev ->
                   delete_files_from_sd_card_after_download args = true)
    (ftp_download env args).
Proof.
  unfold ftp_download. apply emits_bind.
  - eapply emits_weaken; [|apply connect_phase_handshake_only].
    intros [| | | | | |[]|]; simpl; tauto.
  - intros dl.
    unfold transfer_phase, transfer_body, fetch_all, no_files_handler, nlst,
      cwd, logger_info, logger_error.
    repeat first [ apply download_loop_dele | emits_step ];
      simpl; tauto.
Qed.

(** X11.  Without the delete-after-download option a run never deletes
    anything from the printer: no [DELE] command is sent, whatever the
    printer answers. *)
Theorem no_remote_delete_without_option (w : World St) :
  delete_files_from_sd_card_after_download args = false ->
  trace w = [] ->
  Forall (fun ev => ~ is_dele ev) (trace (snd (run env args w))).
Proof.
  intros Hflag Ht. rewrite run_world.
  destruct (ftp_download_dele w) as [t [E F]].
  rewrite E, Ht. simpl.
  eapply Forall_impl; [exact F|].
  intros ev Hev Hd. specialize (Hev Hd). congruence.
Qed.

(** *** How a run can end *)

Lemma handshake_no_exit : no_exit (handshake env args).
Proof.
  unfold handshake, connect, login, prot_p, logger_info.
  repeat no_exit_step.
Qed.

Lemma connect_phase_outcome (w : World St) :
  (exists downloaded_files,
      fst (connect_phase env args w) = Ok downloaded_files)
  \/ fst (connect_phase env args w) = Exit 1.
Proof.
  assert (Hne : no_exit (connect_body env args)).
  { unfold connect_body.
    apply no_exit_bind; [apply local_scan_no_exit | intros].
    apply no_exit_bind; [apply handshake_no_exit | intros].
    apply no_exit_ret. }
  unfold connect_phase, try_except. specialize (Hne w).
  destruct (connect_body env args w) as [[dl|e|c] w1]; simpl in *.
  - left. now exists dl.
  - now right.
  - now destruct (Hne c).
Qed.

Lemma download_loop_no_exit (total_files index : nat) (files : list string) :
  no_exit (download_loop env args total_files index files).
Proof.
  revert index. induction files as [|f rest IH]; intros index; simpl.
  - apply no_exit_ret.
  - apply no_exit_bind; [apply fetch_one_no_exit | intros; apply IH].
Qed.

Lemma fetch_all_no_exit (downloaded_files : list string) :
  no_exit (fetch_all env args downloaded_files).
Proof.
  unfold fetch_all, nlst, logger_info.
  repeat first [ apply download_loop_no_exit | no_exit_step ].
Qed.

Lemma transfer_body_exit (downloaded_files : list string) (w : World St)
    (c : Z) :
  fst (transfer_body env args downloaded_files w) = Exit c -> c = 1.
Proof.
  assert (Hn : no_exit (nlst env)) by (unfold nlst; repeat no_exit_step).
  assert (Hin : no_exit
            (bind (cwd env (ftp_timelapse_folder args))
               (fun _ => try_except (fetch_all env args downloaded_files)
                           is_error_perm no_files_handler))).
  { unfold cwd, no_files_handler, logger_error.
    repeat first [ apply fetch_all_no_exit | no_exit_step ]. }
  unfold transfer_body, bind at 1. specialize (Hn w).
  destruct (nlst env w) as [[root|e|c'] w1]; simpl in *.
  - destruct (py_in (ftp_timelapse_folder args) root).
    + intros H. now destruct (Hin w1 c).
    + unfold logger_info, bind, emit, sys_exit. simpl. now intros [= <-].
  - discriminate.
  - now destruct (Hn c').
Qed.

Lemma transfer_phase_outcome (downloaded_files : list string)
    (w : World St) :
  fst (transfer_phase env args downloaded_files w) = Ok tt
  \/ fst (transfer_phase env args downloaded_files w) = Exit 1.
Proof.
  unfold transfer_phase, try_except.
  pose proof (transfer_body_exit downloaded_files w) as Hc.
  destruct (transfer_body env args downloaded_files w) as [[[]|e|c] w1];
    simpl in *.
  - now left.
  - now right.
  - right. now rewrite (Hc c eq_refl).
Qed.

Lemma ftp_download_outcome (w : World St) :
  fst (ftp_download env args w) = Ok tt
  \/ fst (ftp_download env args w) = Exit 1.
Proof.
  unfold ftp_download, bind.
  destruct (connect_phase_outcome w) as [[dl Hdl]|Hex].
  - destruct (connect_phase env args w) as [r w1]. simpl in Hdl. subst r.
    apply transfer_phase_outcome.
  - destruct (connect_phase env args w) as [r w1]. simpl in Hex. subst r.
    now right.
Qed.

(** X12.  Whatever the file system and the printer answer, [ftp_download]
    never lets an exception escape: it either returns, and the process ends
    with status 0, or it calls [sys.exit(1)]; no other status is possible. *)
Theorem run_ends_with_status_0_or_1 (w : World St) :
  (fst (ftp_download env args w) = Ok tt /\ fst (run env args w) = 0)
  \/ (fst (ftp_download env args w) = Exit 1 /\ fst (run env args w) = 1).
Proof.
  rewrite run_status.
  destruct (ftp_download_outcome w) as [H|H]; rewrite H; auto.
Qed.

(** *** Failures before the folder is entered *)

Lemma cwd_world (dirname : string) (w : World St) :
  fs (snd (cwd env dirname w)) = fs w
  /\ trace (snd (cwd env dirname w)) = (trace w ++ [EvFtp (CWD dirname)])%list.
Proof.
  unfold cwd, bind, emit, ask, check. simpl.
  now destruct (ftp_cwd env dirname (env_state w)) as [[e|] s'].
Qed.

Lemma cwd_elsewhere (dirname : string) (w : World St) :
  elsewhere (snd (cwd env dirname w)) = elsewhere w.
Proof.
  unfold cwd, bind, emit, ask, check. simpl.
  now destruct (ftp_cwd env dirname (env_state w)) as [[e|] s'].
Qed.

Lemma run_transfer_raises (w : World St) (downloaded_files : list string)
    (e : exn) :
  fst (connect_phase env args w) = Ok downloaded_files ->
  fst (transfer_body env args downloaded_files
         (snd (connect_phase env args w))) = Raise e ->
  fst (run env args w) = 1
  /\ last (trace (snd (run env args w)))
     = Some (EvLog ERROR (MsgProgramFailed (exn_str e))).
Proof.
  intros Hc Hb. rewrite (run_connected env args w downloaded_files Hc).
  unfold transfer_phase, try_except.
  destruct (transfer_body env args downloaded_files
              (snd (connect_phase env args w))) as [r w2].
  simpl in Hb. subst r. simpl. split; [reflexivity | apply last_snoc].
Qed.

(** X13.  In a run that has connected, an exception raised by the listing of
    the root, or by the change into the timelapse folder, is always fatal: it
    is logged as a program failure and the process exits with status 1, even
    when it is the very permission error [550 No files found] that is
    tolerated once inside the folder. *)
Theorem root_or_cwd_failure_is_fatal (w : World St)
    (downloaded_files : list string) (e : exn) :
  fst (connect_phase env args w) = Ok downloaded_files ->
  let w1 := snd (connect_phase env args w) in
  (fst (nlst env w1) = Raise e ->
   fst (run env args w) = 1
   /\ last (trace (snd (run env args w)))
      = Some (EvLog ERROR (MsgProgramFailed (exn_str e))))
  /\ (forall root,
        fst (nlst env w1) = Ok root ->
        In (ftp_timelapse_folder args) root ->
        fst (cwd env (ftp_timelapse_folder args) (snd (nlst env w1)))
          = Raise e ->
        fst (run env args w) = 1
        /\ last (trace (snd (run env args w)))
           = Some (EvLog ERROR (MsgProgramFailed (exn_str e)))).
Proof.
  intros Hc w1. split.
  - intros Hn. apply (run_transfer_raises w downloaded_files e Hc).
    fold w1. unfold transfer_body. now rewrite (bind_raise _ _ _ _ Hn).
  - intros root Hn Hin Hcwd.
    apply (run_transfer_raises w downloaded_files e Hc).
    fold w1. unfold transfer_body.
    apply py_in_spec in Hin.
    rewrite (bind_ok _ _ _ _ Hn), Hin.
    now rewrite (bind_raise _ _ _ _ Hcwd).
Qed.

(** *** Nothing new to download *)

(** X14.  In a run that has connected and entered the folder, when every
    [.avi] name of the listing is already a local name, the run logs that
    there is nothing new and ends with status 0: after the listing it sends
    nothing more to the printer, and the files of the download directory,
    and the files elsewhere, are those of the start of the run. *)
Theorem nothing_new_ends_cleanly (w : World St)
    (downloaded_files root names : list string) :
  fst (connect_phase env args w) = Ok downloaded_files ->
  let w1 := snd (connect_phase env args w) in
  fst (nlst env w1) = Ok root ->
  In (ftp_timelapse_folder args) root ->
  let w2 := snd (nlst env w1) in
  fst (cwd env (ftp_timelapse_folder args) w2) = Ok tt ->
  let w3 := snd (cwd env (ftp_timelapse_folder args) w2) in
  let w4 := snd (logger_info MsgLooking w3) in
  fst (nlst env w4) = Ok names ->
  download_set downloaded_files names = [] ->
  fst (run env args w) = 0
  /\ trace (snd (run env args w))
     = (trace w3 ++ [EvLog INFO MsgLooking; EvFtp NLST;
                     EvLog INFO MsgNoNewFiles])%list
  /\ contents (snd (run env args w)) = contents w
  /\ elsewhere (snd (run env args w)) = elsewhere w.
Proof.
  intros Hc w1 Hroot Hin w2 Hcwd w3 w4 Hlist Hnone.
  apply py_in_spec in Hin.
  destruct (nlst_world env w1) as [Hfs2 _]. fold w2 in Hfs2.
  destruct (cwd_world (ftp_timelapse_folder args) w2) as [Hfs3 _].
  fold w3 in Hfs3.
  destruct (nlst_world env w4) as [Hfs5 Htr5].
  set (w5 := snd (nlst env w4)) in *.
  assert (Hall : fetch_all env args downloaded_files w3
    = (Ok tt, {| fs := fs w5; elsewhere := elsewhere w5; env_state := env_state w5;
                 trace := (trace w5 ++ [EvLog INFO MsgNoNewFiles])%list |})).
  { unfold fetch_all.
    rewrite (bind_ok (logger_info MsgLooking) _ w3 tt eq_refl). fold w4.
    rewrite (bind_ok _ _ _ _ Hlist). fold w5. now rewrite Hnone. }
  assert (Hrun : run env args w
    = (0, {| fs := fs w5; elsewhere := elsewhere w5; env_state := env_state w5;
             trace := (trace w5 ++ [EvLog INFO MsgNoNewFiles])%list |})).
  { rewrite (run_connected env args w downloaded_files Hc). fold w1.
    unfold transfer_phase, try_except at 1, transfer_body.
    rewrite (bind_ok _ _ _ _ Hroot), Hin. fold w2.
    rewrite (bind_ok _ _ _ _ Hcwd). fold w3.
    unfold try_except. now rewrite Hall. }
  rewrite Hrun. simpl. split; [reflexivity|]. split; [|split].
  - rewrite Htr5. unfold w4. simpl. now rewrite <- !app_assoc.
  - unfold contents at 1. simpl. rewrite Hfs5. unfold w4. simpl.
    rewrite Hfs3, Hfs2. apply (connect_phase_contents env args w).
  - unfold w5. rewrite (nlst_elsewhere env w4). unfold w4. simpl.
    unfold w3. rewrite cwd_elsewhere. unfold w2.
    rewrite (nlst_elsewhere env w1). apply (connect_phase_elsewhere env args w).
Qed.

(** *** The arguments a run uses *)

Lemma download_loop_run_events (total_files index : nat)
    (files : list string) :
  (forall f, In f files -> endswith f ".avi" = true) ->
  emits (run_event args) (download_loop env args total_files index files).
Proof.
  intros Havi.
  eapply emits_weaken; [|apply (download_loop_iteration env args)].
  intros ev (k & g & Hk & Hev).
  assert (Hg : endswith g ".avi" = true)
    by (apply Havi; eapply nth_error_In; exact Hk).
  destruct ev as [| | | | | |[]|[] []]; simpl in *; intuition congruence.
Qed.

Lemma ftp_download_run_events :
  emits (run_event args) (ftp_download env args).
Proof.
  unfold ftp_download. apply emits_bind.
  - unfold connect_phase, connect_body, local_scan, dir_exists, makedirs,
      listdir, handshake, connect, login, prot_p, logger_info, logger_error.
    repeat emits_step; simpl; auto.
  - intros dl.
    unfold transfer_phase, transfer_body, fetch_all, no_files_handler, nlst,
      cwd, logger_info, logger_error.
    repeat first [ apply download_loop_run_events | emits_step ];
      simpl; auto.
    intros f Hf. unfold download_set in Hf.
    apply filter_In in Hf as [Hf _]. now apply filter_In in Hf as [_ Hf].
Qed.

(** X18.  Every effect of a run follows the parsed command line and the
    [.avi] filter: the directory created and listed is [--download_dir];
    every file that is sized, fetched, written, removed or deleted has a
    name that ends with [.avi], and its local path is built from
    [--download_dir] and that name; the login uses [--user] and
    [--password]; the only directory change is into
    [--ftp_timelapse_folder]; and every control connection goes to the host
    of [--ip] and to port 990, whatever [--port] is. *)
Theorem run_events_follow_arguments (w : World St) :
  trace w = [] ->
  Forall (run_event args) (trace (snd (run env args w))).
Proof.
  intros Ht. rewrite run_world.
  destruct (ftp_download_run_events w) as [t [E F]].
  now rewrite E, Ht.
Qed.

End RunFacts.

(** ** The name of the log file *)

Lemma append_cons (c : Ascii.ascii) (s t : string) :
  String c s +:+ t = String c (s +:+ t).
Proof. reflexivity. Qed.

Lemma rstrip_all_in (t chars : string) :
  forallb (fun c => in_chars c chars) (String.list_ascii_of_string t) = true ->
  rstrip t chars = "".
Proof.
  induction t as [|c t IH]; simpl; [reflexivity|].
  rewrite andb_true_iff. intros [Hc Ht]. now rewrite (IH Ht), Hc.
Qed.

Lemma rstrip_append (s t chars : string) :
  forallb (fun c => in_chars c chars) (String.list_ascii_of_string t) = true ->
  rstrip (s +:+ t) chars = rstrip s chars.
Proof.
  intros Ht. induction s as [|c s IH].
  - now apply rstrip_all_in.
  - rewrite append_cons. simpl. now rewrite IH.
Qed.

Lemma rstrip_decompose (s chars : string) :
  exists tail,
    s = rstrip s chars +:+ tail
    /\ forallb (fun c => in_chars c chars) (String.list_ascii_of_string tail)
       = true.
Proof.
  induction s as [|c s (tail & Hs & Ht)].
  - now exists "".
  - simpl. destruct (rstrip s chars) as [|d kept] eqn:Hr.
    + destruct (in_chars c chars) eqn:Hc.
      * exists (String c s). split; [reflexivity|].
        simpl. rewrite Hc. simpl in Hs. now rewrite Hs.
      * exists s. split; [reflexivity|]. simpl in Hs. now rewrite Hs.
    + exists tail. split; [|exact Ht].
      rewrite append_cons. now rewrite <- Hs.
Qed.

Lemma rstrip_last (s chars p : string) (c : Ascii.ascii) :
  rstrip s chars = p +:+ String c "" -> in_chars c chars = false.
Proof.
  revert p. induction s as [|a s IH]; intros p; simpl.
  - destruct p; discriminate.
  - destruct (rstrip s chars) as [|d kept] eqn:Hr.
    + destruct (in_chars a chars) eqn:Ha.
      * destruct p; discriminate.
      * destruct p as [|b p]; simpl.
        -- now intros [= <-].
        -- intros [= _ H]. destruct p; discriminate.
    + destruct p as [|b p]; simpl.
      * discriminate.
      * intros [= _ H]. now apply (IH p).
Qed.

(** X15.  The string that line 30 builds, [log_name_], is
    [<stem>_<login>.log], where the stem is the logger name without its
    longest run of trailing characters among [.], [l], [o] and [g]: what is
    cut off consists of such characters only, and the stem does not end with
    one.  (So more than a [.log] extension can be lost: for a logger named
    [catalog] the stem is [cata].)  Line 31 then hands this string to
    [strftime] behind the date; that step is not part of the statement. *)
Theorem log_name_strips_trailing_characters (logger_name login : string) :
  exists stem tail,
    logger_name = stem +:+ tail
    /\ log_name_ logger_name login = stem +:+ "_" +:+ login +:+ ".log"
    /\ forallb (fun c => in_chars c ".log") (String.list_ascii_of_string tail)
       = true
    /\ (forall p c, stem = p +:+ String c "" -> in_chars c ".log" = false).
Proof.
  destruct (rstrip_decompose logger_name ".log") as (tail & Hs & Ht).
  exists (rstrip logger_name ".log"), tail.
  split; [exact Hs|]. split; [reflexivity|]. split; [exact Ht|].
  intros p c. apply rstrip_last.
Qed.

Example log_name_catalog : log_name_ "catalog" "pi" = "cata_pi.log".
Proof. reflexivity. Qed.

Example log_name_main : log_name_ "__main__" "pi" = "__main___pi.log".
Proof. reflexivity. Qed.

(** X16.  A logger name given with or without the [.log] extension yields
    the same log file name. *)
Theorem log_name_ignores_log_extension (logger_name login : string) :
  log_name_ (logger_name +:+ ".log") login = log_name_ logger_name login.
Proof. unfold log_name_. now rewrite rstrip_append. Qed.

(** ** The implicit-TLS socket *)

Lemma set_sock_not_plain (wrap_socket : nat -> option exn)
    (self self' : ImplicitFTP_TLS) (value : option socket) :
  set_sock wrap_socket self value = inr self' ->
  forall fd, sock self' <> Some (PlainSocket fd).
Proof.
  unfold set_sock, sock.
  destruct value as [[fd'|fd']|].
  - destruct (wrap_socket fd'); [discriminate|]. now intros [= <-].
  - now intros [= <-].
  - now intros [= <-].
Qed.

Lemma assign_all_not_plain (wrap_socket : nat -> option exn)
    (values : list (option socket)) (self : ImplicitFTP_TLS) :
  (forall fd, sock self <> Some (PlainSocket fd)) ->
  forall fd, sock (assign_all wrap_socket self values) <> Some (PlainSocket fd).
Proof.
  revert self. induction values as [|value rest IH]; intros self Hself;
    simpl; [exact Hself|].
  destruct (set_sock wrap_socket self value) as [e|self'] eqn:Hset.
  - now apply IH.
  - apply IH. now apply (set_sock_not_plain wrap_socket self self' value).
Qed.

(** X17.  The control socket of an [ImplicitFTP_TLS] object is never a plain
    socket: after the constructor and any sequence of assignments to [sock],
    including assignments whose TLS wrapping raises, the object holds no
    socket or an [SSLSocket]. *)
Theorem control_socket_is_never_plain (wrap_socket : nat -> option exn)
    (values : list (option socket)) (fd : nat) :
  sock (assign_all wrap_socket ImplicitFTP_TLS_init values)
  <> Some (PlainSocket fd).
Proof. now apply assign_all_not_plain. Qed.

(** ** Witnesses of the further properties *)






(** An existing file that another name leads to is not protected: the folder
    lists [./a.avi], which is not the name of a local file, so it is in the
    download set; its path leads to the existing [a.avi], which the run
    overwrites. *)
Example alias_overwrites_existing_file :
  contents (Sim.start (Some Scenario.stocked)) !! "a.avi"
    = Some [Byte.x01; Byte.x02]
  /\ download_set ["a.avi"] ["./a.avi"] = ["./a.avi"]
  /\ os_locate Scenario.aliasing
       (download_file_path (download_dir (Sim.cli 990 false)) "./a.avi")
     = Entry "a.avi"
  /\ fst (run Scenario.aliasing (Sim.cli 990 false)
            (Sim.start (Some Scenario.stocked))) = 0
  /\ contents (snd (run Scenario.aliasing (Sim.cli 990 false)
                      (Sim.start (Some Scenario.stocked)))) !! "a.avi"
     = Some (Sim.chunk 600 ++ Sim.chunk 400)%list.
Proof. vm_compute. repeat split. Qed.

Lemma sizing_error_ends_loop_witness :
  fst (size (Sim.printer Sim.SizeRefused) "a.avi" (Sim.start (Some ∅)))
    = Raise Sim.size_refused
  /\ fst (download_loop (Sim.printer Sim.SizeRefused) (Sim.cli 990 false) 2 1
            ["a.avi"; "b.avi"] (Sim.start (Some ∅)))
     = Raise Sim.size_refused.
Proof.
  assert (H : fst (size (Sim.printer Sim.SizeRefused) "a.avi"
                     (Sim.start (Some ∅))) = Raise Sim.size_refused)
    by reflexivity.
  split; [exact H|].
  pose proof (sizing_error_ends_loop (Sim.printer Sim.SizeRefused)
                (Sim.cli 990 false) 2 1 "a.avi" ["b.avi"]
                (Sim.start (Some ∅)) Sim.size_refused H) as T.
  now rewrite (proj1 T).
Defined.

Lemma size_none_ends_loop_witness :
  fst (size Scenario.size_unknown "a.avi" (Sim.start (Some ∅))) = Ok None
  /\ exists msg,
       fst (download_loop Scenario.size_unknown (Sim.cli 990 false) 2 1
              ["a.avi"; "b.avi"] (Sim.start (Some ∅)))
       = Raise (Exn TypeError msg).
Proof.
  assert (H : fst (size Scenario.size_unknown "a.avi" (Sim.start (Some ∅)))
              = Ok None) by reflexivity.
  split; [exact H|].
  destruct (size_none_ends_loop Scenario.size_unknown (Sim.cli 990 false)
              2 1 "a.avi" ["b.avi"] (Sim.start (Some ∅)) H)
    as [msg [T _]].
  exists msg. now rewrite T.
Defined.

Lemma loop_completes_when_sizes_answer_witness :
  fst (download_loop (Sim.printer Sim.TransferBroken) (Sim.cli 990 true) 2 1
         ["a.avi"; "b.avi"] (Sim.start (Some ∅))) = Ok tt.
Proof.
  apply (loop_completes_when_sizes_answer (Sim.printer Sim.TransferBroken)
           (Sim.cli 990 true) 2 1 ["a.avi"; "b.avi"] (Sim.start (Some ∅))).
  - intros f s. eexists. eexists. split; [reflexivity|].
    now destruct (String.eqb f "b.avi").
  - intros dir f s. reflexivity.
Defined.

Lemma download_stores_stream_witness :
  fst (download (Sim.printer Sim.NoFault) (Sim.cli 990 false) 2 1 "a.avi"
         1000 (Sim.start (Some Scenario.stocked))) = Ok tt
  /\ file_at (snd (download (Sim.printer Sim.NoFault) (Sim.cli 990 false)
                     2 1 "a.avi" 1000 (Sim.start (Some Scenario.stocked))))
       (Entry "a.avi")
     = Some (Sim.chunk 600 ++ Sim.chunk 400)%list.
Proof.
  assert (H : fst (download (Sim.printer Sim.NoFault) (Sim.cli 990 false)
                     2 1 "a.avi" 1000 (Sim.start (Some Scenario.stocked)))
              = Ok tt) by (vm_compute; reflexivity).
  split; [exact H|].
  pose proof (download_stores_stream (Sim.printer Sim.NoFault)
                (Sim.cli 990 false) 2 1 "a.avi" 1000
                (Sim.start (Some Scenario.stocked)) H) as T.
  cbv zeta in T.
  change (Entry "a.avi")
    with (os_locate (Sim.printer Sim.NoFault)
            (download_file_path (download_dir (Sim.cli 990 false)) "a.avi")).
  rewrite (proj1 T). vm_compute. reflexivity.
Defined.

Lemma failed_transfer_is_not_deleted_witness :
  fst (download (Sim.printer Sim.TransferBroken) (Sim.cli 990 true) 2 1
         "a.avi" 1000
         (snd (size (Sim.printer Sim.TransferBroken) "a.avi"
                 (Sim.start (Some ∅)))))
    = Raise Sim.transfer_broken
  /\ exists t,
       trace (snd (fetch_one (Sim.printer Sim.TransferBroken)
                     (Sim.cli 990 true) 2 1 "a.avi" (Sim.start (Some ∅))))
       = (trace (Sim.start (Some ∅)) ++ t)%list
       /\ Forall (fun ev => ~ is_dele ev) t.
Proof.
  assert (Hs : fst (size (Sim.printer Sim.TransferBroken) "a.avi"
                      (Sim.start (Some ∅))) = Ok (Some 1000)) by reflexivity.
  assert (Hn : 1000 <> 0) by lia.
  assert (Hd : fst (download (Sim.printer Sim.TransferBroken)
                      (Sim.cli 990 true) 2 1 "a.avi" 1000
                      (snd (size (Sim.printer Sim.TransferBroken) "a.avi"
                              (Sim.start (Some ∅)))))
               = Raise Sim.transfer_broken) by (vm_compute; reflexivity).
  split; [exact Hd|].
  exact (failed_transfer_is_not_deleted (Sim.printer Sim.TransferBroken)
           (Sim.cli 990 true) 2 1 "a.avi" (Sim.start (Some ∅)) 1000
           Sim.transfer_broken Hs Hn Hd).
Defined.

Lemma no_remote_delete_without_option_witness :
  delete_files_from_sd_card_after_download (Sim.cli 990 false) = false
  /\ Forall (fun ev => ~ is_dele ev)
       (trace (snd (run (Sim.printer Sim.NoFault) (Sim.cli 990 false)
                      (Sim.start (Some ∅))))).
Proof.
  split; [reflexivity|].
  apply (no_remote_delete_without_option (Sim.printer Sim.NoFault)
           (Sim.cli 990 false) (Sim.start (Some ∅))); reflexivity.
Defined.

Lemma root_or_cwd_failure_is_fatal_witness :
  fst (cwd Scenario.cwd_refused (ftp_timelapse_folder (Sim.cli 990 false))
         (snd (nlst Scenario.cwd_refused
                 (snd (connect_phase Scenario.cwd_refused (Sim.cli 990 false)
                         (Sim.start None))))))
    = Raise Sim.no_files
  /\ is_no_files Sim.no_files = true
  /\ fst (run Scenario.cwd_refused (Sim.cli 990 false) (Sim.start None)) = 1.
Proof.
  assert (Hc : fst (connect_phase Scenario.cwd_refused (Sim.cli 990 false)
                      (Sim.start None)) = Ok [])
    by (vm_compute; reflexivity).
  assert (Hr : fst (nlst Scenario.cwd_refused
                      (snd (connect_phase Scenario.cwd_refused
                              (Sim.cli 990 false) (Sim.start None))))
               = Ok ["timelapse"; "cache"]) by (vm_compute; reflexivity).
  assert (Hi : In (ftp_timelapse_folder (Sim.cli 990 false))
                  ["timelapse"; "cache"]) by (simpl; auto).
  assert (Hw : fst (cwd Scenario.cwd_refused
                      (ftp_timelapse_folder (Sim.cli 990 false))
                      (snd (nlst Scenario.cwd_refused
                              (snd (connect_phase Scenario.cwd_refused
                                      (Sim.cli 990 false)
                                      (Sim.start None))))))
               = Raise Sim.no_files) by (vm_compute; reflexivity).
  split; [exact Hw|]. split; [reflexivity|].
  pose proof (root_or_cwd_failure_is_fatal Scenario.cwd_refused
                (Sim.cli 990 false) (Sim.start None) [] Sim.no_files Hc)
    as T.
  cbv zeta in T.
  exact (proj1 (proj2 T ["timelapse"; "cache"] Hr Hi Hw)).
Defined.

Lemma nothing_new_ends_cleanly_witness :
  download_set
    (List.filter (fun f => endswith f ".avi")
       (elements (dom Scenario.complete : gset string)))
    ["a.avi"; "b.avi"; "c.txt"] = []
  /\ fst (run (Sim.printer Sim.NoFault) (Sim.cli 990 false)
            (Sim.start (Some Scenario.complete))) = 0.
Proof.
  assert (Hc : fst (connect_phase (Sim.printer Sim.NoFault)
                      (Sim.cli 990 false)
                      (Sim.start (Some Scenario.complete)))
               = Ok (List.filter (fun f => endswith f ".avi")
                       (elements (dom Scenario.complete : gset string))))
    by (vm_compute; reflexivity).
  assert (Hr : fst (nlst (Sim.printer Sim.NoFault)
                      (snd (connect_phase (Sim.printer Sim.NoFault)
                              (Sim.cli 990 false)
                              (Sim.start (Some Scenario.complete)))))
               = Ok ["timelapse"; "cache"]) by (vm_compute; reflexivity).
  assert (Hi : In (ftp_timelapse_folder (Sim.cli 990 false))
                  ["timelapse"; "cache"]) by (simpl; auto).
  assert (Hw : fst (cwd (Sim.printer Sim.NoFault)
                      (ftp_timelapse_folder (Sim.cli 990 false))
                      (snd (nlst (Sim.printer Sim.NoFault)
                              (snd (connect_phase (Sim.printer Sim.NoFault)
                                      (Sim.cli 990 false)
                                      (Sim.start (Some Scenario.complete)))))))
               = Ok tt) by (vm_compute; reflexivity).
  assert (Hl : fst (nlst (Sim.printer Sim.NoFault)
                      (snd (logger_info MsgLooking
                              (snd (cwd (Sim.printer Sim.NoFault)
                                      (ftp_timelapse_folder
                                         (Sim.cli 990 false))
                                      (snd (nlst (Sim.printer Sim.NoFault)
                                              (snd (connect_phase
                                                      (Sim.printer Sim.NoFault)
                                                      (Sim.cli 990 false)
                                                      (Sim.start
                                                         (Some
                                                            Scenario.complete)))))))))))
               = Ok ["a.avi"; "b.avi"; "c.txt"]) by (vm_compute; reflexivity).
  assert (Hn : download_set
                 (List.filter (fun f => endswith f ".avi")
                    (elements (dom Scenario.complete : gset string)))
                 ["a.avi"; "b.avi"; "c.txt"] = [])
    by (vm_compute; reflexivity).
  split; [exact Hn|].
  pose proof (nothing_new_ends_cleanly (Sim.printer Sim.NoFault)
                (Sim.cli 990 false) (Sim.start (Some Scenario.complete))
                _ ["timelapse"; "cache"] ["a.avi"; "b.avi"; "c.txt"]
                Hc Hr Hi Hw Hl Hn) as T.
  cbv zeta in T. exact (proj1 T).
Defined.

Lemma run_events_follow_arguments_witness :
  trace (Sim.start (Some ∅)) = []
  /\ Forall (run_event (Sim.cli 2121 true))
       (trace (snd (run (Sim.printer Sim.NoFault) (Sim.cli 2121 true)
                      (Sim.start (Some ∅))))).
Proof.
  split; [reflexivity|].
  apply (run_events_follow_arguments (Sim.printer Sim.NoFault)
           (Sim.cli 2121 true) (Sim.start (Some ∅))).
  reflexivity.
Defined.

Lemma completed_transfer_then_delete_witness :
  fst (download (Sim.printer Sim.NoFault) (Sim.cli 990 true) 2 1 "a.avi" 1000
         (snd (size (Sim.printer Sim.NoFault) "a.avi" (Sim.start (Some ∅)))))
    = Ok tt
  /\ float_overflows 1000 = false
  /\ fst (fetch_one (Sim.printer Sim.NoFault) (Sim.cli 990 true) 2 1 "a.avi"
            (Sim.start (Some ∅))) = Ok tt.
Proof.
  assert (Hs : fst (size (Sim.printer Sim.NoFault) "a.avi"
                      (Sim.start (Some ∅))) = Ok (Some 1000)) by reflexivity.
  assert (Hn : 1000 <> 0) by lia.
  assert (Hfits : float_overflows 1000 = false) by (vm_compute; reflexivity).
  assert (Hd : fst (download (Sim.printer Sim.NoFault) (Sim.cli 990 true)
                      2 1 "a.avi" 1000
                      (snd (size (Sim.printer Sim.NoFault) "a.avi"
                              (Sim.start (Some ∅))))) = Ok tt)
    by (vm_compute; reflexivity).
  split; [exact Hd|]. split; [exact Hfits|].
  pose proof (completed_transfer_then_delete (Sim.printer Sim.NoFault)
                (Sim.cli 990 true) 2 1 "a.avi" (Sim.start (Some ∅)) 1000
                Hs Hn Hfits Hd) as T.
  cbv zeta in T. exact (proj1 T).
Defined.
